(** * pymycqu: the Authserver login dialogue and the card ticket scraper

    A shallow embedding of [mycqu/auth/_authserver.py] and of
    [_get_ticket] from [mycqu/card/_help.py].

    The HTTP session is the only mutable resource of the code.  It is
    modelled by the list of requests sent so far; the identity provider is
    an arbitrary function from that history and the current request to a
    response, so that every statement below holds whatever the provider
    answers.  Form data is a Python [dict] that the code mutates in place
    and passes around by reference, hence a small heap of dictionaries. *)

From Stdlib Require Import ZArith String Ascii Lia.
From stdpp Require Import gmap strings list fin_maps.

Open Scope Z_scope.

(** ** Python string primitives

    A [str] is modelled by the [string] of its UTF-8 bytes.  On ASCII text
    a byte is a character, and offsets and lengths are those of Python.
    The first occurrence of an ASCII needle is the same place in bytes and
    in characters, and so is the text cut between two such places; a
    negative bound counts bytes, which are characters only where the text
    it counts over is ASCII. *)

Module Py.

(** Normalisation of a slice or search bound against a length: a negative
    bound counts from the end, and every bound is clamped to [0, len]. *)
Definition norm_index (len i : Z) : Z :=
  if i <? 0 then Z.max 0 (i + len) else Z.min i len.

(** [s.find(sub, start)]: lowest index at or after [start] where [sub]
    occurs in [s], or -1. *)
Definition find (s sub : string) (start : Z) : Z :=
  let len := Z.of_nat (String.length s) in
  match String.index (Z.to_nat (norm_index len start)) sub s with
  | Some n => Z.of_nat n
  | None => -1
  end.

(** [s[i:j]] *)
Definition slice (s : string) (i j : Z) : string :=
  let len := Z.of_nat (String.length s) in
  let lo := norm_index len i in
  let hi := norm_index len j in
  String.substring (Z.to_nat lo) (Z.to_nat (hi - lo)) s.

End Py.

(** ** Data model *)

Definition loc := positive.

(** Values stored in a form-data dictionary: a string, or a reference to a
    dictionary object. *)
Inductive pyval :=
| PStr (s : string)
| PRef (l : loc).

#[global] Instance pyval_eq_dec : EqDecision pyval.
Proof. solve_decision. Defined.

Inductive Method := GET | POST.

#[global] Instance Method_eq_dec : EqDecision Method.
Proof. solve_decision. Defined.

(** One call of [session.get] or [session.post] with the keyword arguments
    the code passes.  [rq_allow_redirects] defaults to [true] and
    [rq_timeout] to [None] (wait for ever) when the call omits them. *)
Record Request := mkRequest {
  rq_method : Method;
  rq_url : string;
  rq_params : option (gmap string pyval);
  rq_data : option (gmap string pyval);
  rq_allow_redirects : bool;
  rq_timeout : option Z
}.

(** [headers] is the case-insensitive dictionary of the library, keyed as
    the library keys it: by the lower-cased name of the header. *)
Record Response := mkResponse {
  status_code : Z;
  headers : gmap string string;
  text : string;
  content : string
}.

(** The session (its history of requests) and the dictionaries alive. *)
Record State := mkState {
  heap : gmap loc (gmap string pyval);
  sent : list Request
}.

(** The exceptions of [mycqu.exception] that the code raises or lets
    through, and [KeyError] for a missing header.  The two conflict
    capabilities are the closures the code builds. *)
#[local] Set Warnings "-register-all".
Inductive exn :=
| UnknownAuthserverException (status : option Z)
| ParseError
| InvaildCaptcha
| IncorrectLoginCredentials
| NotLogined
| CQUWebsiteError
| TicketGetError
| KeyError (key : string)
| MultiSessionConflict (kick cancel : State -> (Response + exn) * State).

(** State and exceptions. *)
Definition M (A : Type) : Type := State -> (A + exn) * State.

Definition ret {A} (a : A) : M A := fun st => (inl a, st).

Definition raise {A} (e : exn) : M A := fun st => (inr e, st).

Definition bind {A B} (m : M A) (k : A -> M B) : M B :=
  fun st => match m st with
            | (inl a, st') => k a st'
            | (inr e, st') => (inr e, st')
            end.

Definition try_except {A} (m : M A) (handler : exn -> M A) : M A :=
  fun st => match m st with
            | (inl a, st') => (inl a, st')
            | (inr e, st') => handler e st'
            end.

Notation "'let*' x ':=' m 'in' k" := (bind m (fun x => k))
  (at level 10, x pattern, m at level 100, k at level 200).

(** What [_LoginedPageParser] holds after [feed]. *)
Record LoginedPage := mkLoginedPage {
  _kick : bool;
  _kick_execution : string;
  _cancel_execution : string
}.

Definition AUTHSERVER_CAPTCHA_DETERMINE_URL : string :=
  "http://authserver.cqu.edu.cn/authserver/needCaptcha.html".

Definition AUTHSERVER_CAPTCHA_IMAGE_URL : string :=
  "http://authserver.cqu.edu.cn/authserver/captcha.html".

Definition LOGIN_URL : string := "http://authserver.cqu.edu.cn/authserver/login".

Definition LOGOUT_URL : string := "http://authserver.cqu.edu.cn/authserver/logout".

(** The attributes of an [AuthserverAuthorizer] instance. *)
Record Authorizer := mkAuthorizer {
  username : string;
  password : string;
  service : option string;
  timeout : Z;
  force_relogin : bool;
  captcha_callback : option (string -> string -> option string);
  keep_longer : bool;
  kick_others : bool
}.

(** [_get_request_data] is declared to return a [Dict] and returns either
    the login page's response or the form data. *)
Inductive request_data :=
| Redirected (login_page : Response)
| FormData (formdata : loc).

(** ** The code *)

Section Code.

(** The identity provider, seen from the session: the requests sent so far
    and the request made give the response. *)
Variable provider : list Request -> Request -> Response.

(** [_page_parser._get_formdata(html, username, password)], absent from the
    sources: the form fields, or the exception it raises ([ParseError]
    among them). *)
Variable _get_formdata : string -> string -> string -> gmap string pyval + exn.

(** [_page_parser._LoginedPageParser(status_code).feed(text)], absent
    from the sources: the parser's attributes afterwards, or the exception
    [feed] raises. *)
Variable _LoginedPageParser : Z -> string -> LoginedPage + exn.

(** [AuthserverAuthorizer.access_service], inherited from the base class
    that is absent from the sources. *)
Variable AuthserverAuthorizer_access_service : string -> M Response.

Definition request (rq : Request) : M Response :=
  fun st => (inl (provider (sent st) rq),
             {| heap := heap st; sent := sent st ++ [rq] |}).

Definition session_get (url : string) (params : option (gmap string pyval))
    (allow_redirects : bool) (tmo : option Z) : M Response :=
  request (mkRequest GET url params None allow_redirects tmo).

Definition session_post (url : string) (data : gmap string pyval)
    (allow_redirects : bool) (tmo : option Z) : M Response :=
  request (mkRequest POST url None (Some data) allow_redirects tmo).

(** A new dictionary object. *)
Definition new_dict (d : gmap string pyval) : M loc :=
  fun st => let l := fresh (dom (heap st)) in
            (inl l, {| heap := <[l := d]> (heap st); sent := sent st |}).

(** The present contents of a dictionary object. *)
Definition read_dict (l : loc) : M (gmap string pyval) :=
  fun st => (inl (default ∅ (heap st !! l)), st).

(** [d[k] = v] *)
Definition setitem (l : loc) (k : string) (v : pyval) : M unit :=
  fun st => (inl tt, {| heap := alter (insert k v) l (heap st); sent := sent st |}).

(** [del d[k]] *)
Definition delitem (l : loc) (k : string) : M unit :=
  fun st => (inl tt, {| heap := alter (delete k) l (heap st); sent := sent st |}).

(** Modelled from the spec: [Authorizer.logout(session)] of the base class
    [_authorizer.py], which is absent from the sources.  The spec has it
    invalidate the session's login state server-side through the provider's
    logout endpoint; it takes the session alone, so it is one request to
    [LOGOUT_URL] with the library's defaults, whose response is dropped. *)
Definition AuthserverAuthorizer_logout : M unit :=
  let* _ := session_get LOGOUT_URL None true None in ret tt.

(** The [deprecated] decorator warns and calls through. *)
Definition logout_authserver : M unit := AuthserverAuthorizer_logout.

(** The body has no [return]: the call is made and [None] is the result. *)
Definition access_authserver_service (service : string) : M (option Response) :=
  let* _ := AuthserverAuthorizer_access_service service in ret None.

(** The partial application [get_login_page] of [_get_request_data]. *)
Definition get_login_page (self : Authorizer) : M Response :=
  session_get LOGIN_URL
    (match service self with
     | None => None
     | Some s => Some {[ "service"%string := PStr s ]}
     end)
    false (Some (timeout self)).

(** [_get_formdata(page.text, self.username, self.password)], its result a
    fresh dictionary. *)
Definition formdata_of (self : Authorizer) (page : Response) : M loc :=
  match _get_formdata (text page) (username self) (password self) with
  | inl d => new_dict d
  | inr e => raise e
  end.

(** [_get_request_data], lines 61-69: [inl] is the early [return]. *)
Definition fetch_login_page (self : Authorizer) : M (Response + Response) :=
  let* login_page := get_login_page self in
  if status_code login_page =? 302 then
    if negb (force_relogin self) then ret (inl login_page)
    else
      let* _ := logout_authserver in
      let* login_page := get_login_page self in
      ret (inr login_page)
  else if negb (status_code login_page =? 200) then
    raise (UnknownAuthserverException None)
  else ret (inr login_page).

(** [_get_request_data], lines 71-75: the [try] and its handler. *)
Definition extract_formdata (self : Authorizer) (login_page : Response) : M loc :=
  try_except (formdata_of self login_page)
    (fun e => match e with
              | ParseError =>
                  let* _ := logout_authserver in
                  let* login_page := get_login_page self in
                  formdata_of self login_page
              | _ => raise e
              end).

Definition _get_request_data (self : Authorizer) : M request_data :=
  let* fetched := fetch_login_page self in
  match fetched with
  | inl login_page => ret (Redirected login_page)
  | inr login_page =>
      let* formdata := extract_formdata self login_page in
      let* _ := (if keep_longer self
                 then setitem formdata "rememberMe" (PStr "on")
                 else ret tt) in
      let* d := read_dict formdata in
      let* _ := (if bool_decide (is_Some (d !! "captchaResponse"%string))
                 then delitem formdata "captchaResponse"
                 else ret tt) in
      ret (FormData formdata)
  end.

Definition _need_captcha (self : Authorizer) : M (option string) :=
  let* r := session_get AUTHSERVER_CAPTCHA_DETERMINE_URL
              (Some {[ "username"%string := PStr (username self) ]}) true None in
  if String.eqb (text r) "true" then ret (Some AUTHSERVER_CAPTCHA_IMAGE_URL)
  else ret None.

(** [request_data["captchaResponse"] = request_data] *)
Definition _need_captcha_handler (self : Authorizer) (captcha : string)
    (request_data : loc) : M unit :=
  setitem request_data "captchaResponse" (PRef request_data).

(** [login_resp.headers['Location']] looks the header up under its
    lower-cased name, whatever its spelling in the answer, and raises
    [KeyError('location')] without it. *)
Definition _redirect_to_service (self : Authorizer) (login_resp : Response)
    : M Response :=
  match headers login_resp !! "location"%string with
  | Some location => session_get location None false None
  | None => raise (KeyError "location")
  end.

(** The closure [kick] of [_handle_login_error], over [self] and [parser]. *)
Definition kick (self : Authorizer) (parser : LoginedPage) : M Response :=
  let* login_resp :=
    session_post LOGIN_URL
      {[ "execution"%string := PStr (_kick_execution parser);
         "_eventId"%string := PStr "continue" ]}
      false (Some (timeout self)) in
  _redirect_to_service self login_resp.

(** The closure [cancel] of [_handle_login_error], over [self] and [parser]. *)
Definition cancel (self : Authorizer) (parser : LoginedPage) : M Response :=
  session_post LOGIN_URL
    {[ "execution"%string := PStr (_cancel_execution parser);
       "_eventId"%string := PStr "cancel" ]}
    false (Some (timeout self)).

Definition _handle_login_error (self : Authorizer) (login_resp : Response)
    : M Response :=
  match _LoginedPageParser (status_code login_resp) (text login_resp) with
  | inr e => raise e
  | inl parser =>
      if _kick parser then
        if kick_others self then kick self parser
        else raise (MultiSessionConflict (kick self parser) (cancel self parser))
      else raise (UnknownAuthserverException (Some (status_code login_resp)))
  end.

Definition _login (self : Authorizer) (request_data : loc) : M Response :=
  let* data := read_dict request_data in
  let* login_resp := session_post LOGIN_URL data false None in
  if negb (status_code login_resp =? 302) then _handle_login_error self login_resp
  else _redirect_to_service self login_resp.

(** [mycqu/card/_help.py] *)

Definition ticket_url : string := "http://card.cqu.edu.cn/Page/Page".

Definition ticket_data : gmap string pyval :=
  {[ "EMenuName"%string := PStr "电费、网费";
     "MenuName"%string := PStr "电费、网费";
     "Url"%string :=
       PStr "http%3a%2f%2fcard.cqu.edu.cn%3a8080%2fblade-auth%2ftoken%2fthirdToToken%2ffwdt";
     "apptype"%string := PStr "4";
     "flowID"%string := PStr "10002" ]}.

Definition _get_ticket : M string :=
  let* r := session_post ticket_url ticket_data true None in
  if negb (status_code r =? 200) then raise CQUWebsiteError
  else
    let ticket_start := Py.find (text r) "ticket=" 0 in
    if 0 <? ticket_start then
      let ticket_end := Py.find (text r) "'" ticket_start in
      let ticket :=
        Py.slice (text r) (ticket_start + Z.of_nat (String.length "ticket="))
          ticket_end in
      ret ticket
    else raise TicketGetError.

End Code.

(** ** Vocabulary of the statements *)

(** The request [get_login_page] makes. *)
Definition login_page_request (self : Authorizer) : Request :=
  mkRequest GET LOGIN_URL
    (match service self with
     | None => None
     | Some s => Some {[ "service"%string := PStr s ]}
     end)
    None false (Some (timeout self)).

Definition logout_request : Request :=
  mkRequest GET LOGOUT_URL None None true None.

(** The credential submission of [_login]. *)
Definition credential_request (data : gmap string pyval) : Request :=
  mkRequest POST LOGIN_URL None (Some data) false None.

Definition kick_request (self : Authorizer) (parser : LoginedPage) : Request :=
  mkRequest POST LOGIN_URL None
    (Some {[ "execution"%string := PStr (_kick_execution parser);
             "_eventId"%string := PStr "continue" ]})
    false (Some (timeout self)).

Definition cancel_request (self : Authorizer) (parser : LoginedPage) : Request :=
  mkRequest POST LOGIN_URL None
    (Some {[ "execution"%string := PStr (_cancel_execution parser);
             "_eventId"%string := PStr "cancel" ]})
    false (Some (timeout self)).

Definition service_request (location : string) : Request :=
  mkRequest GET location None None false None.

(** The requests a failed first extraction adds: a logout and a re-fetch. *)
Definition retry_requests
    (_get_formdata : string -> string -> string -> gmap string pyval + exn)
    (self : Authorizer) (login_page : Response) : list Request :=
  match _get_formdata (text login_page) (username self) (password self) with
  | inr ParseError => [logout_request; login_page_request self]
  | _ => []
  end.

(** The credential submission [_login] makes from the dictionary [rd]. *)
Definition submission_of (st : State) (rd : loc) : Request :=
  credential_request (default ∅ (heap st !! rd)).

(** The request of [_get_ticket]. *)
Definition ticket_request : Request :=
  mkRequest POST ticket_url None (Some ticket_data) true None.

(** The probe of [_need_captcha]. *)
Definition captcha_probe (self : Authorizer) : Request :=
  mkRequest GET AUTHSERVER_CAPTCHA_DETERMINE_URL
    (Some {[ "username"%string := PStr (username self) ]}) None true None.

(** The session after some more requests. *)
Definition after (st : State) (rqs : list Request) : State :=
  {| heap := heap st; sent := sent st ++ rqs |}.

(** A computation that only adds requests to the session. *)
Definition extends {A} (m : M A) : Prop :=
  forall st : State, exists rest : list Request, sent (snd (m st)) = sent st ++ rest.

(** The requests a computation adds to the session. *)
Definition issued {A} (m : M A) (st : State) : list Request :=
  drop (length (sent st)) (sent (snd (m st))).

Definition is_login_page_fetch (rq : Request) : bool :=
  match rq_method rq with
  | GET => String.eqb (rq_url rq) LOGIN_URL
  | POST => false
  end.

Definition is_logout (rq : Request) : bool := String.eqb (rq_url rq) LOGOUT_URL.

Definition is_submission (rq : Request) : bool :=
  match rq_method rq with
  | POST => String.eqb (rq_url rq) LOGIN_URL
  | GET => false
  end.

Definition count_of (p : Request -> bool) (rqs : list Request) : nat :=
  length (List.filter p rqs).

(** [sub] occurs in [s] at offset [n]. *)
Definition occurs_at (sub s : string) (n : nat) : Prop :=
  exists pre post : string, s = (pre ++ sub ++ post)%string /\ String.length pre = n.

(** The first occurrence of [sub] in [s] is at offset [n]. *)
Definition first_at (sub s : string) (n : nat) : Prop :=
  occurs_at sub s n /\ forall m, occurs_at sub s m -> (n <= m)%nat.

Definition quote_free (t : string) : Prop :=
  forall n, String.get n t <> Some "'"%char.

(** [t] is what stands strictly between the first ['ticket='] of [body] and
    the next single quote. *)
Definition ticket_between (body t : string) : Prop :=
  exists pre post : string,
    body = (pre ++ "ticket=" ++ t ++ "'" ++ post)%string /\
    first_at "ticket=" body (String.length pre) /\
    quote_free t.

(** ** Collaborators for the examples *)

(** A provider that answers the n-th request of the session with the n-th
    response of a script. *)
Definition scripted (script : list Response) (fallback : Response)
    : list Request -> Request -> Response :=
  fun history _ => nth (length history) script fallback.

Definition page (status : Z) (body : string) : Response :=
  mkResponse status ∅ body "".

Definition redirect_to (location : string) : Response :=
  mkResponse 302 {[ "location"%string := location ]} "" "".

(** An extractor that takes a page starting with a form for a login form. *)
Definition form_fields (html u p : string) : gmap string pyval + exn :=
  if String.prefix "<form" html
  then inl {[ "username"%string := PStr u; "password"%string := PStr p;
              "execution"%string := PStr "e1s1" ]}
  else inr ParseError.

(** A parser that takes a page starting with [<kick] for a conflict page. *)
Definition conflict_parser (status : Z) (html : string) : LoginedPage + exn :=
  if String.prefix "<kick" html
  then inl (mkLoginedPage true "e2s1" "e2s2")
  else inl (mkLoginedPage false "" "").

Definition fresh_session : State := mkState ∅ [].

Definition student (force kick : bool) : Authorizer :=
  mkAuthorizer "20201234" "secret" (Some "http://my.cqu.edu.cn/") 10 force None false kick.

(** The form data of that student, as object 1 of a session that has sent
    nothing yet. *)
Definition login_form : gmap string pyval :=
  {[ "username"%string := PStr "20201234"; "password"%string := PStr "secret";
     "execution"%string := PStr "e1s1" ]}.

Definition filled_session : State := mkState {[ 1%positive := login_form ]} [].

Definition kick_page : LoginedPage := mkLoginedPage true "e2s1" "e2s2".

(** A session not logged in: the form, then the submission is accepted. *)
Definition provider_fresh : list Request -> Request -> Response :=
  scripted [page 200 "<form>"; redirect_to "http://my.cqu.edu.cn/?ticket=ST-1";
            page 200 "welcome"]
    (page 500 "").

(** A session already logged in: the login page redirects to the service. *)
Definition provider_logined : list Request -> Request -> Response :=
  scripted [redirect_to "http://my.cqu.edu.cn/?ticket=ST-1"] (page 500 "").

(** A session logged in whose first page after the logout is no form: the
    redirect, the logout, a page without form, the logout, the form, and
    then the submission is accepted. *)
Definition provider_stale : list Request -> Request -> Response :=
  scripted [redirect_to "http://my.cqu.edu.cn/?ticket=ST-1"; page 200 "bye";
            page 200 "<html>"; page 200 "bye"; page 200 "<form>";
            redirect_to "http://my.cqu.edu.cn/?ticket=ST-2"; page 200 "welcome"]
    (page 500 "").

(** The submission meets a conflict, and every cancel is answered. *)
Definition provider_conflict : list Request -> Request -> Response :=
  scripted [page 200 "<kick>"; page 200 "cancelled"; page 200 "cancelled"]
    (page 500 "").


(** The card site answers with a quoted ticket, or with one that no quote
    ends. *)
Definition provider_ticket : list Request -> Request -> Response :=
  scripted [page 200 "xticket=abc'def"] (page 500 "").

Definition provider_unterminated : list Request -> Request -> Response :=
  scripted [page 200 "xticket=abc"] (page 500 "").

(** ** More of the code: the card page and the fee queries *)

(** The attributes of a [_CardPageParser]; a [None] identifier is the value
    of an attribute written without one. *)
Record CardPageParser := mkCardPageParser {
  _starttag : bool;
  ssoticket_id : option string
}.

(** [_CardPageParser.__init__] *)
Definition CardPageParser_init : CardPageParser := mkCardPageParser false (Some "").

(** The [for] loop of [handle_starttag] with its [break]: the value of the
    first attribute named [value], if there is one. *)
Fixpoint first_value (attrs : list (string * option string)) : option (option string) :=
  match attrs with
  | [] => None
  | (key, val) :: rest =>
      if String.eqb key "value" then Some val else first_value rest
  end.

Definition handle_starttag (self : CardPageParser) (tag : string)
    (attrs : list (string * option string)) : CardPageParser :=
  if negb (_starttag self) && String.eqb tag "input" &&
     bool_decide (("name"%string, Some "ssoticketid"%string) ∈ attrs)
  then
    match first_value attrs with
    | Some val => mkCardPageParser true val
    | None => mkCardPageParser true (ssoticket_id self)
    end
  else self.

(** [HTMLParser.feed], as far as this parser sees it: [handle_starttag] is
    called for each start tag of the document, in order. *)
Definition feed_starttags (self : CardPageParser)
    (tags : list (string * list (string * option string))) : CardPageParser :=
  fold_left (fun parser t => handle_starttag parser (fst t) (snd t)) tags self.

(** What [json.loads] gives: [dict], [list], [str], numbers by their
    literal, [bool] and [None]. *)
Inductive json :=
| JNull
| JBool (b : bool)
| JNum (literal : string)
| JStr (s : string)
| JList (items : list json)
| JDict (items : list (string * json)).

(** What the fee queries raise: the exceptions above, [CQUWebsiteError]
    with an argument, and the [TypeError] and [JSONDecodeError] of Python. *)
Inductive pyexn :=
| Raised (e : exn)
| CQUWebsiteErrorWith (arg : json)
| TypeError
| JSONDecodeError.

(** The value of a key of a [dict] with distinct keys. *)
Fixpoint dict_get (items : list (string * json)) (key : string) : option json :=
  match items with
  | [] => None
  | (k, v) :: rest => if String.eqb k key then Some v else dict_get rest key
  end.

(** [obj[key]] for a string [key]: only a [dict] can be subscripted by it. *)
Definition getitem (obj : json) (key : string) : json + pyexn :=
  match obj with
  | JDict items =>
      match dict_get items key with
      | Some v => inl v
      | None => inr (Raised (KeyError key))
      end
  | _ => inr TypeError
  end.

(** [obj == s] for a string [s] *)
Definition eq_str (obj : json) (s : string) : bool :=
  match obj with
  | JStr t => String.eqb t s
  | _ => false
  end.

(** [s + obj] for a string [s] *)
Definition str_add (s : string) (obj : json) : string + pyexn :=
  match obj with
  | JStr t => inl (s ++ t)%string
  | _ => inr TypeError
  end.

Definition synjones_auth_url : string :=
  "http://card.cqu.edu.cn:8080/blade-auth/token/fwdt".

Definition fee_data_url : string :=
  "http://card.cqu.edu.cn:8080/charge/feeitem/getThirdData".

Section CardCode.

(** [requests.post(url, data=..., cookies=...)], a call outside any
    session: its answer.  A call that raises instead of answering has no
    answer here; what is stated of the two functions below is stated of
    calls that are answered. *)
Variable requests_post :
  string -> gmap string pyval -> option (gmap string string) -> Response.

(** [json.loads]; [None] when it raises [JSONDecodeError]. *)
Variable json_loads : string -> option json.

(** [raise CQUWebsiteError(arg)], for the class of [mycqu.exception] that
    is absent from the sources: what is raised, the exception itself or
    whatever its constructor raises on that argument. *)
Variable raise_CQUWebsiteError : json -> pyexn.

Definition _get_synjones_auth (ticket : string) : string + pyexn :=
  let data : gmap string pyval := {[ "ticket"%string := PStr ticket ]} in
  let r := requests_post synjones_auth_url data None in
  if negb (status_code r =? 200) then inr (Raised CQUWebsiteError)
  else
    let tried :=
      match json_loads (text r) with
      | None => inr JSONDecodeError
      | Some dic =>
          match getitem dic "data" with
          | inl data => getitem data "access_token"
          | inr e => inr e
          end
      end in
    match tried with
    | inr _ => inr (Raised ParseError)
    | inl token => str_add "bearer " token
    end.

Definition _get_fee_data (synjones_auth room fee_item_id : string) : json + pyexn :=
  let data : gmap string pyval :=
    {[ "feeitemid"%string := PStr fee_item_id;
       "json"%string := PStr "true";
       "level"%string := PStr "2";
       "room"%string := PStr room;
       "type"%string := PStr "IEC" ]} in
  let cookie : gmap string string := {[ "synjones-auth"%string := synjones_auth ]} in
  let r := requests_post fee_data_url data (Some cookie) in
  if negb (status_code r =? 200) then inr (Raised CQUWebsiteError)
  else
    match json_loads (text r) with
    | None => inr JSONDecodeError
    | Some dic =>
        match getitem dic "msg" with
        | inr e => inr e
        | inl msg =>
            if eq_str msg "success" then inl dic
            else
              match getitem dic "msg" with
              | inr e => inr e
              | inl arg => inr (raise_CQUWebsiteError arg)
              end
        end
    end.

End CardCode.

(** What lines 76-80 of [_get_request_data] make of the extracted fields. *)
Definition finished_formdata (self : Authorizer) (d : gmap string pyval)
    : gmap string pyval :=
  delete "captchaResponse"%string
    (if keep_longer self then <[ "rememberMe"%string := PStr "on" ]> d else d).

(** The request [_redirect_to_service] makes for an answer, if any. *)
Definition location_requests (login_resp : Response) : list Request :=
  match headers login_resp !! "location"%string with
  | Some location => [service_request location]
  | None => []
  end.

(** A start tag that [handle_starttag] takes for the ticket field. *)
Definition is_ticket_input (t : string * list (string * option string)) : Prop :=
  fst t = "input"%string /\ ("name"%string, Some "ssoticketid"%string) ∈ snd t.

(** A text of ASCII characters only: each of its bytes is a character. *)
Definition ascii_only (t : string) : Prop :=
  forall (n : nat) (c : ascii), String.get n t = Some c -> (nat_of_ascii c < 128)%nat.

(** A string without its last character. *)
Definition without_last (t : string) : string :=
  String.substring 0 (String.length t - 1) t.

(** Some tags of a card page. *)
Definition card_page_tags : list (string * list (string * option string)) :=
  [ ("form", [("method", Some "post")]);
    ("input", [("type", Some "hidden"); ("name", Some "errorcode"); ("value", Some "1")]);
    ("input", [("type", Some "hidden"); ("name", Some "ssoticketid");
               ("value", Some "T-42")]);
    ("input", [("name", Some "ssoticketid"); ("value", Some "T-43")]) ]%string.

(** The card service answers every call with a token, or with a failure. *)
Definition token_service
    : string -> gmap string pyval -> option (gmap string string) -> Response :=
  fun _ _ _ => page 200 "{token}".

Definition fee_service
    : string -> gmap string pyval -> option (gmap string string) -> Response :=
  fun _ _ _ => page 200 "{fee}".

(** A decoder that knows three documents. *)
Definition sample_json_loads (document : string) : option json :=
  if String.eqb document "{token}" then
    Some (JDict [("code", JNum "200");
                 ("data", JDict [("access_token", JStr "abc.def")])])
  else if String.eqb document "{fee}" then
    Some (JDict [("msg", JStr "success"); ("amount", JNum "12.5")])
  else if String.eqb document "{number}" then
    Some (JDict [("data", JDict [("access_token", JNum "7")])])
  else None.


(** An extractor that finds a CAPTCHA field in the form too. *)
Definition form_fields_with_captcha (html u p : string) : gmap string pyval + exn :=
  if String.prefix "<form" html
  then inl {[ "username"%string := PStr u; "password"%string := PStr p;
              "execution"%string := PStr "e1s1";
              "captchaResponse"%string := PStr "" ]}
  else inr ParseError.

(** The student, asking to stay logged in. *)
Definition student_staying : Authorizer :=
  mkAuthorizer "20201234" "secret" (Some "http://my.cqu.edu.cn/") 10 false None
    true false.

(** A [CQUWebsiteError] that puts a string argument in its message. *)
Definition message_error (arg : json) : pyexn :=
  match arg with
  | JStr _ => CQUWebsiteErrorWith arg
  | _ => TypeError
  end.

(** The card service answers with a page that is no JSON, or refuses the
    room. *)
Definition garbled_service
    : string -> gmap string pyval -> option (gmap string string) -> Response :=
  fun _ _ _ => page 200 "<html>".

Definition refusing_service
    : string -> gmap string pyval -> option (gmap string string) -> Response :=
  fun _ _ _ => page 200 "{refused}".

Definition refusal_json_loads (document : string) : option json :=
  if String.eqb document "{refused}" then
    Some (JDict [("msg", JStr "room not found")])
  else None.

(** The provider is down. *)
Definition provider_down : list Request -> Request -> Response :=
  scripted [] (page 500 "").

(** A session logged in whose page after the logout comes with status 500
    and a form all the same. *)
Definition provider_odd : list Request -> Request -> Response :=
  scripted [redirect_to "http://my.cqu.edu.cn/?ticket=ST-1"; page 200 "bye";
            page 500 "<form>"]
    (page 500 "").


Definition provider_lost : list Request -> Request -> Response :=
  scripted [page 302 ""] (page 500 "").

(** An extractor that fails on a field it misses. *)
Definition broken_fields (html u p : string) : gmap string pyval + exn :=
  inr (KeyError "execution").

(** The card service fails, or answers with a number for a token. *)
Definition failing_service
    : string -> gmap string pyval -> option (gmap string string) -> Response :=
  fun _ _ _ => page 404 "".

Definition number_service
    : string -> gmap string pyval -> option (gmap string string) -> Response :=
  fun _ _ _ => page 200 "{number}".

(** ** Running the code *)

Section Facts.

Variable provider : list Request -> Request -> Response.
Variable _get_formdata : string -> string -> string -> gmap string pyval + exn.
Variable _LoginedPageParser : Z -> string -> LoginedPage + exn.
Variable AuthserverAuthorizer_access_service : string -> M Response.

Lemma after_after (st : State) (a b : list Request) :
  after (after st a) b = after st (a ++ b).
Proof. unfold after; cbn [heap sent]. now rewrite <- app_assoc. Qed.

Lemma run_request (rq : Request) (st : State) :
  request provider rq st = (inl (provider (sent st) rq), after st [rq]).
Proof. reflexivity. Qed.

Lemma run_get_login_page (self : Authorizer) (st : State) :
  get_login_page provider self st =
    (inl (provider (sent st) (login_page_request self)),
     after st [login_page_request self]).
Proof. reflexivity. Qed.

Lemma run_logout (st : State) :
  logout_authserver provider st = (inl tt, after st [logout_request]).
Proof. reflexivity. Qed.

(** Lines 61-69 of [_get_request_data], case by case. *)
Lemma run_fetch_login_page (self : Authorizer) (st : State) :
  fetch_login_page provider self st =
    let g := login_page_request self in
    let r1 := provider (sent st) g in
    if status_code r1 =? 302 then
      if force_relogin self
      then (inl (inr (provider (sent st ++ [g; logout_request]) g)),
            after st [g; logout_request; g])
      else (inl (inl r1), after st [g])
    else if status_code r1 =? 200 then (inl (inr r1), after st [g])
    else (inr (UnknownAuthserverException None), after st [g]).
Proof.
  unfold fetch_login_page, bind. rewrite run_get_login_page. cbn zeta.
  destruct (status_code _ =? 302).
  - destruct (force_relogin self); cbn [negb]; [| reflexivity].
    rewrite run_logout, run_get_login_page. unfold ret.
    now rewrite !after_after.
  - destruct (status_code _ =? 200); reflexivity.
Qed.

(** Lines 71-75 of [_get_request_data], case by case. *)
Lemma run_extract_formdata (self : Authorizer) (login_page : Response) (st : State) :
  extract_formdata provider _get_formdata self login_page st =
    match _get_formdata (text login_page) (username self) (password self) with
    | inl d => new_dict d st
    | inr ParseError =>
        formdata_of _get_formdata self
          (provider (sent st ++ [logout_request]) (login_page_request self))
          (after st [logout_request; login_page_request self])
    | inr e => (inr e, st)
    end.
Proof.
  unfold extract_formdata, try_except, formdata_of at 1.
  destruct (_get_formdata (text login_page) _ _) as [d | e]; [reflexivity |].
  destruct e; try reflexivity.
  unfold raise, bind. rewrite run_logout, run_get_login_page.
  now rewrite after_after.
Qed.

Lemma formdata_of_sent (self : Authorizer) (login_page : Response) (st : State) :
  sent (snd (formdata_of _get_formdata self login_page st)) = sent st.
Proof.
  unfold formdata_of. now destruct (_get_formdata _ _ _).
Qed.

(** The result and the requests of [_get_request_data], from those of its
    two halves: the edits of the dictionary that follow send nothing. *)
Lemma run_get_request_data (self : Authorizer) (st : State) :
  exists st' : State,
    sent st' =
      match fetch_login_page provider self st with
      | (inl (inr login_page), st1) =>
          sent (snd (extract_formdata provider _get_formdata self login_page st1))
      | (_, st1) => sent st1
      end /\
    _get_request_data provider _get_formdata self st =
      (match fetch_login_page provider self st with
       | (inl (inl login_page), _) => inl (Redirected login_page)
       | (inl (inr login_page), st1) =>
           match fst (extract_formdata provider _get_formdata self login_page st1) with
           | inl formdata => inl (FormData formdata)
           | inr e => inr e
           end
       | (inr e, _) => inr e
       end, st').
Proof.
  unfold _get_request_data, bind.
  destruct (fetch_login_page provider self st) as [[[r | login_page] | e] st1];
    [eexists; split; reflexivity | | eexists; split; reflexivity].
  destruct (extract_formdata _ _ _ _ _) as [[formdata | e] st2];
    [| eexists; split; reflexivity].
  cbn [fst snd]. unfold ret, read_dict, setitem, delitem.
  destruct (keep_longer self); cbn [heap sent];
    match goal with |- context [bool_decide ?P] => destruct (bool_decide P) end;
    eexists; (split; [| reflexivity]); reflexivity.
Qed.
Lemma issued_of_sent {A} (m : M A) (st : State) (rqs : list Request) :
  sent (snd (m st)) = sent st ++ rqs -> issued m st = rqs.
Proof. unfold issued. intros ->. apply drop_app_length. Qed.

Lemma extract_formdata_sent (self : Authorizer) (login_page : Response) (st : State) :
  sent (snd (extract_formdata provider _get_formdata self login_page st)) =
    sent st ++ retry_requests _get_formdata self login_page.
Proof.
  rewrite run_extract_formdata. unfold retry_requests.
  destruct (_get_formdata (text login_page) _ _) as [d | e].
  - cbn. now rewrite app_nil_r.
  - destruct e; cbn [snd]; rewrite ?app_nil_r; try reflexivity.
    now rewrite formdata_of_sent.
Qed.

(** Every request of [_get_request_data], in order. *)
Lemma get_request_data_issued (self : Authorizer) (st : State) :
  issued (_get_request_data provider _get_formdata self) st =
    let g := login_page_request self in
    let r1 := provider (sent st) g in
    if status_code r1 =? 302 then
      if force_relogin self
      then [g; logout_request; g] ++
           retry_requests _get_formdata self (provider (sent st ++ [g; logout_request]) g)
      else [g]
    else if status_code r1 =? 200 then [g] ++ retry_requests _get_formdata self r1
    else [g].
Proof.
  apply issued_of_sent.
  destruct (run_get_request_data self st) as (st' & Hsent & ->).
  cbn [snd]. rewrite Hsent, run_fetch_login_page. cbn zeta.
  destruct (status_code _ =? 302).
  - destruct (force_relogin self); [| reflexivity].
    rewrite extract_formdata_sent. cbn [after sent]. now rewrite <- app_assoc.
  - destruct (status_code _ =? 200); [| reflexivity].
    rewrite extract_formdata_sent. cbn [after sent]. now rewrite <- app_assoc.
Qed.

Lemma retry_requests_cases (self : Authorizer) (login_page : Response) :
  (retry_requests _get_formdata self login_page = [logout_request; login_page_request self] /\
   _get_formdata (text login_page) (username self) (password self) = inr ParseError) \/
  (retry_requests _get_formdata self login_page = [] /\
   _get_formdata (text login_page) (username self) (password self) <> inr ParseError).
Proof.
  unfold retry_requests.
  destruct (_get_formdata _ _ _) as [d | e]; [right; split; [reflexivity | discriminate] |].
  destruct e; try (right; split; [reflexivity | discriminate]).
  left; split; reflexivity.
Qed.

(** ** The request data *)

(** C9: when the first fetch of the login page is answered with status 302
    and [force_relogin] is false, [_get_request_data] returns the response of
    that fetch itself, not form data, after this one request. *)
Theorem get_request_data_returns_redirect (self : Authorizer) (st : State) :
  status_code (provider (sent st) (login_page_request self)) = 302 ->
  force_relogin self = false ->
  _get_request_data provider _get_formdata self st =
    (inl (Redirected (provider (sent st) (login_page_request self))),
     after st [login_page_request self]).
Proof.
  intros H302 Hforce.
  unfold _get_request_data, bind. rewrite run_fetch_login_page. cbn zeta.
  now rewrite H302, Hforce.
Qed.

(** C2, amended: [_get_request_data], which runs before the credentials are
    submitted, fetches the login page at most three times; it fetches it
    three times only when [force_relogin] is set, the first fetch is
    answered with status 302 and the extraction from the page fetched again
    raises [ParseError]. *)
Theorem login_page_fetches_at_most_three (self : Authorizer) (st : State) :
  (count_of is_login_page_fetch
     (issued (_get_request_data provider _get_formdata self) st) <= 3)%nat /\
  (count_of is_login_page_fetch
     (issued (_get_request_data provider _get_formdata self) st) = 3%nat ->
   force_relogin self = true /\
   status_code (provider (sent st) (login_page_request self)) = 302 /\
   _get_formdata
     (text (provider (sent st ++ [login_page_request self; logout_request])
              (login_page_request self)))
     (username self) (password self) = inr ParseError).
Proof.
  rewrite get_request_data_issued. cbn zeta.
  destruct (Z.eqb_spec (status_code (provider (sent st) (login_page_request self))) 302)
    as [H302 | H302].
  - destruct (force_relogin self); [| split; [cbn; lia | cbn; discriminate]].
    destruct (retry_requests_cases self
                (provider (sent st ++ [login_page_request self; logout_request])
                   (login_page_request self))) as [[-> Hp] | [-> Hp]].
    + split; [cbn; lia | auto].
    + split; [cbn; lia | cbn; discriminate].
  - destruct (status_code _ =? 200); [| split; [cbn; lia | cbn; discriminate]].
    destruct (retry_requests_cases self (provider (sent st) (login_page_request self)))
      as [[-> Hp] | [-> Hp]]; (split; [cbn; lia | cbn; discriminate]).
Qed.

(** [_get_request_data] submits nothing. *)
Lemma get_request_data_submits_nothing (self : Authorizer) (st : State) :
  count_of is_submission
    (issued (_get_request_data provider _get_formdata self) st) = 0%nat.
Proof.
  rewrite get_request_data_issued. cbn zeta. unfold retry_requests.
  repeat match goal with
         | |- context [if ?b then _ else _] => destruct b
         | |- context [match ?x with _ => _ end] => destruct x
         end; reflexivity.
Qed.

(** C3, amended: with [force_relogin] set, when the first fetch of the login
    page is answered with status 302 the session is logged out right after
    it and the page is fetched again, before anything is submitted; when it
    is answered with status 200 and the form is extracted, the page is the
    only request and no logout is made.  [_get_request_data] itself submits
    nothing. *)
Theorem force_relogin_logs_out_after_redirect (self : Authorizer) (st : State) :
  force_relogin self = true ->
  (status_code (provider (sent st) (login_page_request self)) = 302 ->
   exists rest : list Request,
     issued (_get_request_data provider _get_formdata self) st =
       login_page_request self :: logout_request :: login_page_request self :: rest) /\
  (status_code (provider (sent st) (login_page_request self)) = 200 ->
   _get_formdata (text (provider (sent st) (login_page_request self)))
     (username self) (password self) <> inr ParseError ->
   issued (_get_request_data provider _get_formdata self) st =
     [login_page_request self]) /\
  count_of is_submission
    (issued (_get_request_data provider _get_formdata self) st) = 0%nat.
Proof.
  intros Hforce. split; [| split].
  - intros H302. rewrite get_request_data_issued. cbn zeta.
    rewrite H302, Hforce. cbn [Z.eqb Pos.eqb app]. eexists. reflexivity.
  - intros H200 Hparse. rewrite get_request_data_issued. cbn zeta.
    rewrite H200. cbn [Z.eqb Pos.eqb].
    destruct (retry_requests_cases self (provider (sent st) (login_page_request self)))
      as [[_ Hp] | [-> _]]; [contradiction | reflexivity].
  - apply get_request_data_submits_nothing.
Qed.

(** C6: when the extraction from the login page that lines 61-69 hand over
    raises [ParseError], what follows is exactly one logout and one fetch of
    the login page, whatever the second extraction gives; when the second
    extraction raises [ParseError] too (or anything else), the exception is
    the outcome of [_get_request_data]; when it succeeds, form data is. *)
Theorem parse_error_retried_once
    (self : Authorizer) (st st1 : State) (login_page : Response) :
  fetch_login_page provider self st = (inl (inr login_page), st1) ->
  _get_formdata (text login_page) (username self) (password self) = inr ParseError ->
  sent (snd (_get_request_data provider _get_formdata self st)) =
    sent st1 ++ [logout_request; login_page_request self] /\
  (_get_formdata
     (text (provider (sent st1 ++ [logout_request]) (login_page_request self)))
     (username self) (password self) = inr ParseError ->
   fst (_get_request_data provider _get_formdata self st) = inr ParseError) /\
  (forall e : exn,
     _get_formdata
       (text (provider (sent st1 ++ [logout_request]) (login_page_request self)))
       (username self) (password self) = inr e ->
     fst (_get_request_data provider _get_formdata self st) = inr e) /\
  (forall d : gmap string pyval,
     _get_formdata
       (text (provider (sent st1 ++ [logout_request]) (login_page_request self)))
       (username self) (password self) = inl d ->
     exists formdata : loc,
       fst (_get_request_data provider _get_formdata self st) = inl (FormData formdata)).
Proof.
  intros Hfetch Hparse.
  destruct (run_get_request_data self st) as (st' & Hsent & Hrun).
  rewrite Hfetch in Hsent, Hrun. rewrite Hrun. cbn [fst snd].
  rewrite extract_formdata_sent in Hsent. unfold retry_requests in Hsent.
  rewrite Hparse in Hsent.
  rewrite run_extract_formdata, Hparse. unfold formdata_of.
  assert (Hany : forall e : exn,
     _get_formdata
       (text (provider (sent st1 ++ [logout_request]) (login_page_request self)))
       (username self) (password self) = inr e ->
     match fst (match _get_formdata
                  (text (provider (sent st1 ++ [logout_request]) (login_page_request self)))
                  (username self) (password self) with
                | inl d => new_dict d
                | inr e0 => raise e0
                end (after st1 [logout_request; login_page_request self])) with
     | inl formdata => inl (FormData formdata)
     | inr e0 => inr e0
     end = inr e).
  { intros e ->. reflexivity. }
  split; [exact Hsent |]. split; [apply Hany |]. split; [exact Hany |].
  intros d ->. eexists. reflexivity.
Qed.

(** ** The submission *)

Lemma run_redirect_to_service (self : Authorizer) (login_resp : Response) (st : State) :
  _redirect_to_service provider self login_resp st =
    match headers login_resp !! "location"%string with
    | Some location =>
        (inl (provider (sent st) (service_request location)),
         after st [service_request location])
    | None => (inr (KeyError "location"), st)
    end.
Proof.
  unfold _redirect_to_service. now destruct (headers login_resp !! _).
Qed.

Lemma run_cancel (self : Authorizer) (parser : LoginedPage) (st : State) :
  cancel provider self parser st =
    (inl (provider (sent st) (cancel_request self parser)),
     after st [cancel_request self parser]).
Proof. reflexivity. Qed.

Lemma run_kick (self : Authorizer) (parser : LoginedPage) (st : State) :
  kick provider self parser st =
    _redirect_to_service provider self
      (provider (sent st) (kick_request self parser))
      (after st [kick_request self parser]).
Proof. reflexivity. Qed.

Lemma run_login (self : Authorizer) (rd : loc) (st : State) :
  _login provider _LoginedPageParser self rd st =
    if status_code (provider (sent st) (submission_of st rd)) =? 302
    then _redirect_to_service provider self
           (provider (sent st) (submission_of st rd)) (after st [submission_of st rd])
    else _handle_login_error provider _LoginedPageParser self
           (provider (sent st) (submission_of st rd)) (after st [submission_of st rd]).
Proof.
  unfold _login, bind, read_dict, session_post. rewrite run_request.
  fold (credential_request (default ∅ (heap st !! rd))). fold (submission_of st rd).
  now destruct (status_code _ =? 302).
Qed.

Lemma redirect_to_service_extends (self : Authorizer) (login_resp : Response) :
  extends (_redirect_to_service provider self login_resp).
Proof.
  intros st. rewrite run_redirect_to_service.
  destruct (headers login_resp !! _).
  - eexists. reflexivity.
  - exists []. cbn. now rewrite app_nil_r.
Qed.

Lemma kick_extends (self : Authorizer) (parser : LoginedPage) :
  extends (kick provider self parser).
Proof.
  intros st. rewrite run_kick.
  destruct (redirect_to_service_extends self
              (provider (sent st) (kick_request self parser))
              (after st [kick_request self parser])) as [rest ->].
  cbn [after sent]. rewrite <- app_assoc. eexists. reflexivity.
Qed.

Lemma handle_login_error_extends (self : Authorizer) (login_resp : Response) :
  extends (_handle_login_error provider _LoginedPageParser self login_resp).
Proof.
  intros st. unfold _handle_login_error.
  destruct (_LoginedPageParser _ _) as [parser | e];
    [| exists []; cbn; now rewrite app_nil_r].
  destruct (_kick parser); [| exists []; cbn; now rewrite app_nil_r].
  destruct (kick_others self); [apply kick_extends |].
  exists []. cbn. now rewrite app_nil_r.
Qed.

(** The first request of [_login] is the submission of the dictionary. *)
Lemma login_issued (self : Authorizer) (rd : loc) (st : State) :
  exists rest : list Request,
    issued (_login provider _LoginedPageParser self rd) st = submission_of st rd :: rest.
Proof.
  assert (H : exists rest : list Request,
            sent (snd (_login provider _LoginedPageParser self rd st)) =
              sent st ++ submission_of st rd :: rest).
  { rewrite run_login.
    destruct (status_code _ =? 302).
    - destruct (redirect_to_service_extends self
                  (provider (sent st) (submission_of st rd))
                  (after st [submission_of st rd])) as [rest ->].
      exists rest. cbn [after sent]. now rewrite <- app_assoc.
    - destruct (handle_login_error_extends self
                  (provider (sent st) (submission_of st rd))
                  (after st [submission_of st rd])) as [rest ->].
      exists rest. cbn [after sent]. now rewrite <- app_assoc. }
  destruct H as [rest H]. exists rest. now apply issued_of_sent.
Qed.

(** C1: [_need_captcha_handler] leaves in the field [captchaResponse] of the
    request data a reference to the request data itself, whatever the
    answer [captcha] is; this is no string, so not the answer, and the
    submission [_login] then makes carries it. *)
Theorem captcha_handler_stores_request_data
    (self : Authorizer) (captcha : string) (rd : loc) (st : State)
    (d : gmap string pyval) :
  heap st !! rd = Some d ->
  heap (snd (_need_captcha_handler self captcha rd st)) !! rd =
    Some (<[ "captchaResponse"%string := PRef rd ]> d) /\
  (<[ "captchaResponse"%string := PRef rd ]> d) !! "captchaResponse"%string =
    Some (PRef rd) /\
  PRef rd <> PStr captcha /\
  exists rest : list Request,
    issued (_login provider _LoginedPageParser self rd)
      (snd (_need_captcha_handler self captcha rd st)) =
      credential_request (<[ "captchaResponse"%string := PRef rd ]> d) :: rest.
Proof.
  intros Hd.
  assert (Hheap : heap (snd (_need_captcha_handler self captcha rd st)) !! rd =
                    Some (<[ "captchaResponse"%string := PRef rd ]> d)).
  { unfold _need_captcha_handler, setitem. cbn [snd heap].
    rewrite lookup_alter_eq, Hd. reflexivity. }
  split; [exact Hheap |]. split; [apply lookup_insert_eq |].
  split; [discriminate |].
  destruct (login_issued self rd (snd (_need_captcha_handler self captcha rd st)))
    as [rest Hrest].
  exists rest. rewrite Hrest. unfold submission_of. now rewrite Hheap.
Qed.

(** C5: three of the network calls of a login carry no timeout, whatever
    [timeout] the caller gave: the submission of the credentials, which is
    the first request of [_login], the probe of [_need_captcha], and the
    request of [_redirect_to_service]. *)
Theorem submission_probe_redirect_have_no_timeout
    (self : Authorizer) (rd : loc) (login_resp : Response) (st : State) :
  (exists rest : list Request,
     issued (_login provider _LoginedPageParser self rd) st =
       submission_of st rd :: rest /\
     is_submission (submission_of st rd) = true /\
     rq_timeout (submission_of st rd) = None) /\
  (issued (_need_captcha provider self) st = [captcha_probe self] /\
   rq_timeout (captcha_probe self) = None) /\
  (issued (_redirect_to_service provider self login_resp) st =
     match headers login_resp !! "location"%string with
     | Some location => [service_request location]
     | None => []
     end /\
   forall location : string, rq_timeout (service_request location) = None).
Proof.
  split; [| split].
  - destruct (login_issued self rd st) as [rest Hrest].
    exists rest. split; [exact Hrest |]. split; reflexivity.
  - split; [| reflexivity]. apply issued_of_sent.
    unfold _need_captcha, bind, session_get. rewrite run_request.
    now destruct (String.eqb _ _).
  - split; [| reflexivity]. apply issued_of_sent.
    rewrite run_redirect_to_service.
    destruct (headers login_resp !! _); cbn [snd after sent]; [reflexivity |].
    now rewrite app_nil_r.
Qed.

Lemma run_handle_login_error_conflict
    (self : Authorizer) (login_resp : Response) (parser : LoginedPage) (st : State) :
  _LoginedPageParser (status_code login_resp) (text login_resp) = inl parser ->
  _kick parser = true ->
  _handle_login_error provider _LoginedPageParser self login_resp st =
    if kick_others self then kick provider self parser st
    else (inr (MultiSessionConflict (kick provider self parser)
                 (cancel provider self parser)), st).
Proof.
  intros Hparser Hkick. unfold _handle_login_error. rewrite Hparser, Hkick.
  now destruct (kick_others self).
Qed.

Lemma run_login_conflict
    (self : Authorizer) (rd : loc) (parser : LoginedPage) (st : State) :
  status_code (provider (sent st) (submission_of st rd)) <> 302 ->
  _LoginedPageParser
    (status_code (provider (sent st) (submission_of st rd)))
    (text (provider (sent st) (submission_of st rd))) = inl parser ->
  _kick parser = true ->
  _login provider _LoginedPageParser self rd st =
    if kick_others self
    then kick provider self parser (after st [submission_of st rd])
    else (inr (MultiSessionConflict (kick provider self parser)
                 (cancel provider self parser)),
          after st [submission_of st rd]).
Proof.
  intros Hstatus Hparser Hkick. rewrite run_login.
  destruct (Z.eqb_spec (status_code (provider (sent st) (submission_of st rd))) 302)
    as [H302 | _]; [contradiction |].
  now apply run_handle_login_error_conflict.
Qed.


(** C4, amended: with [kick_others] unset, a conflict page makes [_login]
    raise [MultiSessionConflict] with the two closures [kick] and [cancel],
    right after the submission.  In any state of the session, so at a first
    invocation and at any later one alike, [cancel] posts the cancel event
    with the cancel token and returns the answer, and [kick] posts the
    continue event with the kick token and hands the answer to
    [_redirect_to_service]; two invocations of [cancel] in a row both
    return a response. *)
Theorem conflict_capabilities_are_reusable
    (self : Authorizer) (rd : loc) (parser : LoginedPage) (st : State) :
  kick_others self = false ->
  status_code (provider (sent st) (submission_of st rd)) <> 302 ->
  _LoginedPageParser
    (status_code (provider (sent st) (submission_of st rd)))
    (text (provider (sent st) (submission_of st rd))) = inl parser ->
  _kick parser = true ->
  _login provider _LoginedPageParser self rd st =
    (inr (MultiSessionConflict (kick provider self parser)
            (cancel provider self parser)),
     after st [submission_of st rd]) /\
  (forall st' : State,
     cancel provider self parser st' =
       (inl (provider (sent st') (cancel_request self parser)),
        after st' [cancel_request self parser])) /\
  (forall st' : State,
     kick provider self parser st' =
       _redirect_to_service provider self
         (provider (sent st') (kick_request self parser))
         (after st' [kick_request self parser])) /\
  (forall st' : State,
     exists r1 r2 : Response,
       cancel provider self parser st' =
         (inl r1, after st' [cancel_request self parser]) /\
       cancel provider self parser (after st' [cancel_request self parser]) =
         (inl r2, after st' [cancel_request self parser; cancel_request self parser])).
Proof.
  intros Hko Hstatus Hparser Hkick.
  split; [| split; [| split]].
  - now rewrite (run_login_conflict self rd parser st Hstatus Hparser Hkick), Hko.
  - intros st'. apply run_cancel.
  - intros st'. apply run_kick.
  - intros st'. eexists. eexists. split; [apply run_cancel |].
    rewrite run_cancel. now rewrite after_after.
Qed.

(** ** The deprecated wrapper *)

(** C8: [access_authserver_service] makes the call of
    [AuthserverAuthorizer.access_service], with its effects on the session
    and its exceptions, and drops the response: when the call returns, the
    wrapper returns [None]; it never returns a response. *)
Theorem access_authserver_service_returns_none (service : string) (st : State) :
  access_authserver_service AuthserverAuthorizer_access_service service st =
    (match fst (AuthserverAuthorizer_access_service service st) with
     | inl _ => inl None
     | inr e => inr e
     end,
     snd (AuthserverAuthorizer_access_service service st)) /\
  (forall (r : Response) (st' : State),
     access_authserver_service AuthserverAuthorizer_access_service service st <>
       (inl (Some r), st')).
Proof.
  assert (H : access_authserver_service AuthserverAuthorizer_access_service service st =
                (match fst (AuthserverAuthorizer_access_service service st) with
                 | inl _ => inl None
                 | inr e => inr e
                 end,
                 snd (AuthserverAuthorizer_access_service service st))).
  { unfold access_authserver_service, bind, ret.
    now destruct (AuthserverAuthorizer_access_service service st) as [[r | e] st']. }
  split; [exact H |].
  intros r st'. rewrite H.
  destruct (fst (AuthserverAuthorizer_access_service service st)); discriminate.
Qed.

(** ** The ticket *)

Lemma append_nil (s : string) : (EmptyString ++ s)%string = s.
Proof. reflexivity. Qed.

Lemma append_cons (c : ascii) (a b : string) :
  (String c a ++ b)%string = String c (a ++ b).
Proof. reflexivity. Qed.

Ltac push_append := rewrite ?append_cons, ?append_nil.

Lemma length_append (a b : string) :
  String.length (a ++ b) = (String.length a + String.length b)%nat.
Proof.
  induction a as [|c a IH]; push_append; [reflexivity |].
  cbn [String.length]. now rewrite IH.
Qed.

Lemma append_assoc (a b c : string) :
  (a ++ b ++ c)%string = ((a ++ b) ++ c)%string.
Proof. induction a as [|x a IH]; push_append; [reflexivity | now rewrite IH]. Qed.

Lemma substring_exact (s post : string) :
  String.substring 0 (String.length s) (s ++ post) = s.
Proof.
  induction s as [|c s IH]; push_append; cbn [String.length String.substring].
  - now destruct post.
  - now rewrite IH.
Qed.

Lemma substring_skip (pre s : string) (n : nat) :
  String.substring (String.length pre) n (pre ++ s) = String.substring 0 n s.
Proof.
  induction pre as [|c pre IH]; push_append; [reflexivity |].
  cbn [String.length String.substring]. apply IH.
Qed.

Lemma substring_split (sub : string) : forall s : string,
  String.substring 0 (String.length sub) s = sub ->
  exists post : string, s = (sub ++ post)%string.
Proof.
  induction sub as [|c sub IH]; intros s H.
  - exists s. reflexivity.
  - destruct s as [|d s]; cbn [String.length String.substring] in H; [discriminate |].
    injection H as -> H. destruct (IH _ H) as [post ->].
    exists post. reflexivity.
Qed.

Lemma index_skip (sub pre s : string) :
  String.index (String.length pre) sub (pre ++ s) =
    option_map (fun n => (String.length pre + n)%nat) (String.index 0 sub s).
Proof.
  induction pre as [|c pre IH]; push_append.
  - cbn [String.length]. now destruct (String.index 0 sub s).
  - cbn [String.length String.index]. rewrite IH.
    now destruct (String.index 0 sub s).
Qed.

Lemma occurs_at_tail (sub s : string) (c : ascii) (m : nat) :
  occurs_at sub s m -> occurs_at sub (String c s) (S m).
Proof.
  intros (pre & post & -> & <-). exists (String c pre), post. split; reflexivity.
Qed.

(** [String.index] finds the first occurrence. *)
Lemma index_first (sub : string) : forall pre post : string,
  sub <> EmptyString ->
  (forall m, occurs_at sub (pre ++ sub ++ post) m -> (String.length pre <= m)%nat) ->
  String.index 0 sub (pre ++ sub ++ post) = Some (String.length pre).
Proof.
  intros pre post Hne. induction pre as [|c pre IH]; intros Hmin; push_append.
  - destruct sub as [|a sub]; [congruence |]. push_append.
    assert (Hp : String.prefix (String a sub) (String a sub ++ post) = true).
    { apply prefix_correct, substring_exact. }
    rewrite append_cons in Hp. cbn [String.index]. now rewrite Hp.
  - cbn [String.index String.length].
    destruct (String.prefix sub (String c (pre ++ sub ++ post))) eqn:Hp.
    + apply prefix_correct, substring_split in Hp. destruct Hp as [post' Hp].
      assert (Ho : occurs_at sub (String c pre ++ sub ++ post) 0).
      { exists EmptyString, post'. split; [exact Hp | reflexivity]. }
      apply Hmin in Ho. cbn [String.length] in Ho. lia.
    + rewrite IH; [reflexivity |].
      intros m Hm. apply (occurs_at_tail _ _ c) in Hm. apply Hmin in Hm.
      cbn [String.length] in Hm. lia.
Qed.

Lemma index_quote (t post : string) :
  quote_free t ->
  String.index 0 "'" (t ++ String "'" post) = Some (String.length t).
Proof.
  induction t as [|c t IH]; intros Hq; push_append.
  - cbn. now destruct post.
  - cbn [String.index String.length String.prefix].
    destruct (Ascii.ascii_dec "'"%char c) as [<- | Hc].
    + exfalso. apply (Hq 0%nat). reflexivity.
    + rewrite IH; [reflexivity |]. intros n. apply (Hq (S n)).
Qed.

Lemma find_marker (pre post : string) :
  (forall m, occurs_at "ticket=" (pre ++ "ticket=" ++ post) m ->
             (String.length pre <= m)%nat) ->
  Py.find (pre ++ "ticket=" ++ post) "ticket=" 0 = Z.of_nat (String.length pre).
Proof.
  intros Hmin. unfold Py.find, Py.norm_index.
  replace (Z.to_nat _) with 0%nat by (cbn; lia).
  now rewrite index_first.
Qed.

Lemma find_quote (pre t post : string) :
  quote_free t ->
  Py.find (pre ++ "ticket=" ++ t ++ "'" ++ post) "'" (Z.of_nat (String.length pre)) =
    Z.of_nat (String.length pre + 7 + String.length t).
Proof.
  intros Hq. unfold Py.find, Py.norm_index.
  rewrite length_append.
  replace (Z.to_nat _) with (String.length pre).
  2:{ destruct (Z.ltb_spec (Z.of_nat (String.length pre)) 0); lia. }
  rewrite index_skip. push_append. cbn [String.index String.prefix].
  cbn. rewrite index_quote by assumption. cbn [option_map]. f_equal. lia.
Qed.

Lemma slice_ticket (pre t post : string) :
  Py.slice (pre ++ "ticket=" ++ t ++ "'" ++ post)
    (Z.of_nat (String.length pre) + Z.of_nat (String.length "ticket="))
    (Z.of_nat (String.length pre + 7 + String.length t)) = t.
Proof.
  unfold Py.slice, Py.norm_index.
  rewrite !length_append. cbn [String.length].
  repeat match goal with
         | |- context [?a <? 0] => destruct (Z.ltb_spec a 0); [lia |]
         end.
  rewrite !Z.min_l by lia.
  replace (Z.to_nat (_ - _)) with (String.length t) by lia.
  replace (Z.to_nat _) with (String.length (pre ++ "ticket=")).
  2:{ rewrite length_append. cbn [String.length]. lia. }
  rewrite (append_assoc pre "ticket=").
  rewrite substring_skip. apply substring_exact.
Qed.

Lemma run_get_ticket (st : State) :
  fst (_get_ticket provider st) =
    if status_code (provider (sent st) ticket_request) =? 200 then
      if 0 <? Py.find (text (provider (sent st) ticket_request)) "ticket=" 0 then
        inl (Py.slice (text (provider (sent st) ticket_request))
               (Py.find (text (provider (sent st) ticket_request)) "ticket=" 0 +
                Z.of_nat (String.length "ticket="))
               (Py.find (text (provider (sent st) ticket_request)) "'"
                  (Py.find (text (provider (sent st) ticket_request)) "ticket=" 0)))
      else inr TicketGetError
    else inr CQUWebsiteError.
Proof.
  unfold _get_ticket, bind, session_post. rewrite run_request.
  fold ticket_request.
  destruct (status_code _ =? 200); cbn [negb]; [| reflexivity].
  now destruct (0 <? _).
Qed.

(** C10, amended: for a response with status 200 in whose body a single
    quote follows the first ['ticket='], [_get_ticket] returns what stands
    strictly between the two if and only if that first occurrence is at a
    positive offset; for a body whose first ['ticket='] is at offset 0 it
    raises [TicketGetError]. *)
Theorem get_ticket_between_marker_and_quote (st : State) :
  status_code (provider (sent st) ticket_request) = 200 ->
  (forall pre t post : string,
     text (provider (sent st) ticket_request) =
       (pre ++ "ticket=" ++ t ++ "'" ++ post)%string ->
     first_at "ticket=" (text (provider (sent st) ticket_request)) (String.length pre) ->
     quote_free t ->
     (fst (_get_ticket provider st) = inl t <-> (0 < String.length pre)%nat)) /\
  (first_at "ticket=" (text (provider (sent st) ticket_request)) 0 ->
   fst (_get_ticket provider st) = inr TicketGetError).
Proof.
  intros H200. rewrite run_get_ticket, H200. cbn [Z.eqb Pos.eqb]. split.
  - intros pre t post Hbody [_ Hmin] Hq. rewrite Hbody in *.
    rewrite find_marker by exact Hmin.
    destruct (Z.ltb_spec 0 (Z.of_nat (String.length pre))) as [Hpos | Hzero].
    + rewrite find_quote, slice_ticket by assumption. split; [lia | reflexivity].
    + split; [discriminate | lia].
  - intros [(pre & post & Hbody & Hlen) Hmin]. rewrite Hbody in *.
    rewrite find_marker; [| intros m Hm; apply Hmin in Hm; lia].
    rewrite Hlen. reflexivity.
Qed.

End Facts.

(** ** Concrete runs *)

Lemma first_at_offset_one (c : ascii) (post : string) :
  c <> "t"%char -> first_at "ticket=" (String c ("ticket=" ++ post)) 1.
Proof.
  intros Hc. split.
  - exists (String c EmptyString), post. split; reflexivity.
  - intros [|m] (pre & post' & Hbody & Hlen); [| lia].
    destruct pre; [| discriminate].
    change (String c ("ticket=" ++ post) = String "t" ("icket=" ++ post')) in Hbody.
    congruence.
Qed.

Lemma get_at_append (a b : string) (c : ascii) :
  String.get (String.length a) (a ++ String c b) = Some c.
Proof. induction a as [|x a IH]; [reflexivity | exact IH]. Qed.

Lemma ticket_between_has_quote (body t : string) :
  ticket_between body t -> exists n : nat, String.get n body = Some "'"%char.
Proof.
  intros (pre & post & -> & _ & _).
  exists (String.length ((pre ++ "ticket=") ++ t)).
  rewrite (append_assoc pre "ticket="), (append_assoc (pre ++ "ticket=") t).
  apply (get_at_append ((pre ++ "ticket=") ++ t) post "'"%char).
Qed.

Lemma abc_quote_free : quote_free "abc".
Proof. intros [|[|[|[|n]]]]; discriminate. Qed.

(** The student of the examples is logged in already and does not force a
    new login: the redirect itself is the result. *)
Lemma get_request_data_returns_redirect_witness :
  _get_request_data provider_logined form_fields (student false false) fresh_session =
    (inl (Redirected (redirect_to "http://my.cqu.edu.cn/?ticket=ST-1")),
     after fresh_session [login_page_request (student false false)]).
Proof.
  apply (get_request_data_returns_redirect provider_logined form_fields
           (student false false) fresh_session); reflexivity.
Defined.

(** A forced login on a session that is logged in starts with the page, the
    logout and the page again. *)
Lemma force_relogin_logs_out_after_redirect_witness :
  exists rest : list Request,
    issued (_get_request_data provider_stale form_fields (student true false))
      fresh_session =
      login_page_request (student true false) :: logout_request ::
      login_page_request (student true false) :: rest.
Proof.
  apply (force_relogin_logs_out_after_redirect provider_stale form_fields
           (student true false) fresh_session); reflexivity.
Defined.

(** The page fetched after the forced logout holds no form: one more logout
    and one more fetch follow, and the form of the last page is the result. *)
Lemma parse_error_retried_once_witness :
  sent (snd (_get_request_data provider_stale form_fields (student true false)
               fresh_session)) =
    [login_page_request (student true false); logout_request;
     login_page_request (student true false)] ++
    [logout_request; login_page_request (student true false)].
Proof.
  apply (parse_error_retried_once provider_stale form_fields (student true false)
           fresh_session
           (after fresh_session
              [login_page_request (student true false); logout_request;
               login_page_request (student true false)])
           (page 200 "<html>")); reflexivity.
Defined.

(** The answer A1B2 of a resolver is not what ends in the form data. *)
Lemma captcha_handler_stores_request_data_witness :
  heap (snd (_need_captcha_handler (student false false) "A1B2" 1%positive
               filled_session)) !! 1%positive =
    Some (<[ "captchaResponse"%string := PRef 1%positive ]> login_form) /\
  (<[ "captchaResponse"%string := PRef 1%positive ]> login_form)
    !! "captchaResponse"%string = Some (PRef 1%positive) /\
  PRef 1%positive <> PStr "A1B2" /\
  exists rest : list Request,
    issued (_login provider_fresh conflict_parser (student false false) 1%positive)
      (snd (_need_captcha_handler (student false false) "A1B2" 1%positive
              filled_session)) =
      credential_request (<[ "captchaResponse"%string := PRef 1%positive ]> login_form)
      :: rest.
Proof.
  apply (captcha_handler_stores_request_data provider_fresh conflict_parser
           (student false false) "A1B2" 1%positive filled_session login_form).
  reflexivity.
Defined.


(** Without [kick_others], the conflict is raised with the two closures. *)
Lemma conflict_capabilities_are_reusable_witness :
  _login provider_conflict conflict_parser (student false false) 1%positive
    filled_session =
    (inr (MultiSessionConflict
            (kick provider_conflict (student false false) kick_page)
            (cancel provider_conflict (student false false) kick_page)),
     after filled_session [submission_of filled_session 1%positive]).
Proof.
  apply (conflict_capabilities_are_reusable provider_conflict conflict_parser
           (student false false) 1%positive kick_page filled_session);
    first [reflexivity | vm_compute; lia].
Defined.

(** A quoted ticket behind one character is returned. *)
Lemma get_ticket_between_marker_and_quote_witness :
  fst (_get_ticket provider_ticket fresh_session) = inl "abc"%string <->
  (0 < String.length "x")%nat.
Proof.
  apply (proj1 (get_ticket_between_marker_and_quote provider_ticket fresh_session
                  eq_refl) "x" "abc" "def")%string.
  - reflexivity.
  - apply first_at_offset_one. discriminate.
  - exact abc_quote_free.
Defined.

(** Against C2 as stated: a forced login on a session that is logged in,
    whose page after the logout holds no form, fetches the login page three
    times before [_login] submits the credentials. *)
Lemma three_login_page_fetches_before_submission :
  count_of is_login_page_fetch
    (issued (_get_request_data provider_stale form_fields (student true false))
       fresh_session) = 3%nat /\
  fst (_get_request_data provider_stale form_fields (student true false)
         fresh_session) = inl (FormData 1%positive) /\
  List.map is_login_page_fetch
    (sent (snd (_login provider_stale conflict_parser (student true false) 1%positive
                  (snd (_get_request_data provider_stale form_fields
                          (student true false) fresh_session))))) =
    [true; false; true; false; true; false; false] /\
  List.map is_submission
    (sent (snd (_login provider_stale conflict_parser (student true false) 1%positive
                  (snd (_get_request_data provider_stale form_fields
                          (student true false) fresh_session))))) =
    [false; false; false; false; false; true; false].
Proof. repeat split; vm_compute; reflexivity. Qed.

(** Against C3 as stated: a forced login on a session that is not logged in
    gets the form at once, and the credentials are submitted with no logout
    before. *)
Lemma forced_login_without_logout :
  force_relogin (student true false) = true /\
  _get_request_data provider_fresh form_fields (student true false) fresh_session =
    (inl (FormData 1%positive),
     mkState {[ 1%positive := login_form ]} [login_page_request (student true false)]) /\
  _login provider_fresh conflict_parser (student true false) 1%positive
    (mkState {[ 1%positive := login_form ]} [login_page_request (student true false)]) =
    (inl (page 200 "welcome"),
     mkState {[ 1%positive := login_form ]}
       [login_page_request (student true false);
        credential_request login_form;
        service_request "http://my.cqu.edu.cn/?ticket=ST-1"]) /\
  List.map is_logout
    [login_page_request (student true false);
     credential_request login_form;
     service_request "http://my.cqu.edu.cn/?ticket=ST-1"] = [false; false; false] /\
  List.map is_submission
    [login_page_request (student true false);
     credential_request login_form;
     service_request "http://my.cqu.edu.cn/?ticket=ST-1"] = [false; true; false].
Proof. repeat split; vm_compute; reflexivity. Qed.

(** Against C4 as stated: the cancel capability of a raised conflict,
    invoked twice in a row, returns a response both times. *)
Lemma cancel_twice_succeeds :
  _login provider_conflict conflict_parser (student false false) 1%positive
    filled_session =
    (inr (MultiSessionConflict
            (kick provider_conflict (student false false) kick_page)
            (cancel provider_conflict (student false false) kick_page)),
     after filled_session [submission_of filled_session 1%positive]) /\
  cancel provider_conflict (student false false) kick_page
    (after filled_session [submission_of filled_session 1%positive]) =
    (inl (page 200 "cancelled"),
     after filled_session
       [submission_of filled_session 1%positive;
        cancel_request (student false false) kick_page]) /\
  cancel provider_conflict (student false false) kick_page
    (after filled_session
       [submission_of filled_session 1%positive;
        cancel_request (student false false) kick_page]) =
    (inl (page 200 "cancelled"),
     after filled_session
       [submission_of filled_session 1%positive;
        cancel_request (student false false) kick_page;
        cancel_request (student false false) kick_page]).
Proof. repeat split; vm_compute; reflexivity. Qed.


(** Against C10 as stated: the first ['ticket='] of the body is at offset 1
    and no single quote follows; [_get_ticket] returns the rest of the body
    without its last character, which is not what stands between the marker
    and a quote, since the body has no quote at all. *)
Lemma get_ticket_without_closing_quote :
  status_code (provider_unterminated (sent fresh_session) ticket_request) = 200 /\
  text (provider_unterminated (sent fresh_session) ticket_request) = "xticket=abc"%string /\
  first_at "ticket=" "xticket=abc" 1 /\
  fst (_get_ticket provider_unterminated fresh_session) = inl "ab"%string /\
  (forall t : string, ~ ticket_between "xticket=abc" t).
Proof.
  split; [reflexivity |]. split; [reflexivity |].
  split; [apply (first_at_offset_one "x" "abc"); discriminate |].
  split; [vm_compute; reflexivity |].
  intros t Hb. destruct (ticket_between_has_quote _ _ Hb) as [n Hn].
  do 12 (destruct n as [|n]; [discriminate |]). discriminate.
Qed.

(** ** More about the request data *)

Section MoreFacts.

Variable provider : list Request -> Request -> Response.
Variable _get_formdata : string -> string -> string -> gmap string pyval + exn.
Variable _LoginedPageParser : Z -> string -> LoginedPage + exn.

(** Lines 76-82 of [_get_request_data] on a dictionary just made. *)
Lemma run_finish_formdata
    (self : Authorizer) (l : loc) (d : gmap string pyval)
    (h : gmap loc (gmap string pyval)) (rqs : list Request) :
  (let* _ := (if keep_longer self
              then setitem l "rememberMe" (PStr "on")
              else ret tt) in
   let* d' := read_dict l in
   let* _ := (if bool_decide (is_Some (d' !! "captchaResponse"%string))
              then delitem l "captchaResponse"
              else ret tt) in
   ret (FormData l)) (mkState (<[l := d]> h) rqs) =
    (inl (FormData l), mkState (<[l := finished_formdata self d]> h) rqs).
Proof.
  unfold bind, setitem, read_dict, delitem, ret, finished_formdata.
  destruct (keep_longer self); cbn [heap sent].
  - rewrite alter_insert_eq, lookup_insert_eq. cbn [default].
    case_bool_decide as Hc; cbn [heap sent].
    + now rewrite alter_insert_eq.
    + rewrite delete_id; [reflexivity |].
      destruct (_ !! "captchaResponse"%string) eqn:E; [| reflexivity].
      exfalso. apply Hc. eauto.
  - rewrite lookup_insert_eq. cbn [default].
    case_bool_decide as Hc; cbn [heap sent].
    + now rewrite alter_insert_eq.
    + rewrite delete_id; [reflexivity |].
      destruct (_ !! "captchaResponse"%string) eqn:E; [| reflexivity].
      exfalso. apply Hc. eauto.
Qed.

(** The second half of [_get_request_data]: which page gave the fields. *)
Lemma extract_formdata_result
    (self : Authorizer) (login_page : Response) (st st' : State) (l : loc) :
  extract_formdata provider _get_formdata self login_page st = (inl l, st') ->
  exists (page : Response) (d : gmap string pyval),
    _get_formdata (text page) (username self) (password self) = inl d /\
    l = fresh (dom (heap st)) /\
    heap st' = <[l := d]> (heap st) /\
    sent st' = sent st ++ retry_requests _get_formdata self login_page.
Proof.
  intros H.
  pose proof (extract_formdata_sent provider _get_formdata self login_page st) as Hs.
  rewrite H in Hs. cbn [snd] in Hs.
  rewrite run_extract_formdata in H.
  destruct (_get_formdata (text login_page) _ _) as [d | e] eqn:E1.
  - unfold new_dict in H. injection H as <- <-.
    exists login_page, d. repeat split; [exact E1 | exact Hs].
  - destruct e; try discriminate.
    unfold formdata_of in H.
    destruct (_get_formdata (text (provider _ _)) _ _) as [d | e] eqn:E2;
      [| discriminate].
    unfold new_dict in H. injection H as <- <-.
    eexists _, d. repeat split; [exact E2 | exact Hs].
Qed.

(** X1: a first answer whose status is neither 302 nor 200 makes
    [_get_request_data] raise [UnknownAuthserverException] after that one
    request, with no logout and no retry, [force_relogin] set or not. *)
Theorem unexpected_status_raises (self : Authorizer) (st : State) :
  status_code (provider (sent st) (login_page_request self)) <> 302 ->
  status_code (provider (sent st) (login_page_request self)) <> 200 ->
  _get_request_data provider _get_formdata self st =
    (inr (UnknownAuthserverException None), after st [login_page_request self]).
Proof.
  intros H302 H200. unfold _get_request_data, bind.
  rewrite run_fetch_login_page. cbn zeta.
  destruct (Z.eqb_spec (status_code (provider (sent st) (login_page_request self))) 302);
    [contradiction |].
  destruct (Z.eqb_spec (status_code (provider (sent st) (login_page_request self))) 200);
    [contradiction | reflexivity].
Qed.

(** X2: after the forced logout the status of the page fetched again is
    not looked at: whatever it is, when the extractor finds the fields in
    the body of that page, they are the form data, after three requests. *)
Theorem refetched_page_status_is_not_checked
    (self : Authorizer) (st : State) (d : gmap string pyval) :
  force_relogin self = true ->
  status_code (provider (sent st) (login_page_request self)) = 302 ->
  _get_formdata
    (text (provider (sent st ++ [login_page_request self; logout_request])
             (login_page_request self)))
    (username self) (password self) = inl d ->
  _get_request_data provider _get_formdata self st =
    (inl (FormData (fresh (dom (heap st)))),
     mkState (<[fresh (dom (heap st)) := finished_formdata self d]> (heap st))
       (sent st ++ [login_page_request self; logout_request; login_page_request self])).
Proof.
  intros Hforce H302 Hd. unfold _get_request_data. unfold bind at 1.
  rewrite run_fetch_login_page. cbn zeta. rewrite H302, Hforce. cbn [Z.eqb Pos.eqb].
  unfold bind at 1. rewrite run_extract_formdata, Hd.
  unfold new_dict. cbn [after heap sent]. apply run_finish_formdata.
Qed.

(** The second half of [_get_request_data], after a fetch of the login
    page: the fields are those of the last page fetched. *)
Lemma extract_formdata_last_page
    (self : Authorizer) (h : gmap loc (gmap string pyval)) (before : list Request)
    (st' : State) (l : loc) :
  extract_formdata provider _get_formdata self
    (provider before (login_page_request self))
    (mkState h (before ++ [login_page_request self])) = (inl l, st') ->
  exists (rqs : list Request) (d : gmap string pyval),
    sent st' = before ++ rqs ++ [login_page_request self] /\
    _get_formdata (text (provider (before ++ rqs) (login_page_request self)))
      (username self) (password self) = inl d /\
    heap st' = <[l := d]> h.
Proof.
  intros H. rewrite run_extract_formdata in H.
  destruct (_get_formdata (text (provider before _)) _ _) as [d | e] eqn:E1.
  - unfold new_dict in H. cbn [heap sent] in H. injection H as <- <-.
    exists [], d. rewrite app_nil_r. cbn [heap sent app]. auto.
  - destruct e; try discriminate.
    unfold formdata_of, raise in H. cbn [after heap sent] in H.
    rewrite <- app_assoc in H. cbn [app] in H.
    destruct (_get_formdata (text (provider (before ++ _) _)) _ _) as [d | e] eqn:E2;
      [| discriminate].
    unfold new_dict in H. cbn [after heap sent] in H. injection H as <- <-.
    exists [login_page_request self; logout_request], d.
    cbn [heap sent]. rewrite <- app_assoc. cbn [app]. auto.
Qed.

(** The state in which [_get_request_data] returns form data, and the page
    the fields come from: the last one fetched. *)
Lemma get_request_data_last_page (self : Authorizer) (st st' : State) (l : loc) :
  _get_request_data provider _get_formdata self st = (inl (FormData l), st') ->
  exists (rqs : list Request) (d : gmap string pyval),
    sent st' = sent st ++ rqs ++ [login_page_request self] /\
    _get_formdata (text (provider (sent st ++ rqs) (login_page_request self)))
      (username self) (password self) = inl d /\
    heap st' = <[l := finished_formdata self d]> (heap st).
Proof.
  intros H. unfold _get_request_data in H. unfold bind at 1 in H.
  rewrite run_fetch_login_page in H. cbn zeta in H.
  assert (Hfirst :
    forall (before : list Request),
      (let* formdata := extract_formdata provider _get_formdata self
                          (provider before (login_page_request self)) in
       let* _ := (if keep_longer self
                  then setitem formdata "rememberMe" (PStr "on")
                  else ret tt) in
       let* d' := read_dict formdata in
       let* _ := (if bool_decide (is_Some (d' !! "captchaResponse"%string))
                  then delitem formdata "captchaResponse"
                  else ret tt) in
       ret (FormData formdata))
        (mkState (heap st) (before ++ [login_page_request self])) =
        (inl (FormData l), st') ->
      exists (rqs : list Request) (d : gmap string pyval),
        sent st' = before ++ rqs ++ [login_page_request self] /\
        _get_formdata (text (provider (before ++ rqs) (login_page_request self)))
          (username self) (password self) = inl d /\
        heap st' = <[l := finished_formdata self d]> (heap st)).
  { intros before H0. unfold bind at 1 in H0.
    destruct (extract_formdata _ _ _ _ _) as [[l0 | e] [h2 rqs2]] eqn:He;
      [| discriminate].
    destruct (extract_formdata_last_page self _ _ _ _ He) as (rqs & d & Hs & Hd & Hh).
    cbn [heap sent] in Hs, Hh. subst h2 rqs2.
    rewrite run_finish_formdata in H0. injection H0 as <- <-.
    exists rqs, d. cbn [heap sent]. auto. }
  destruct (status_code _ =? 302).
  - destruct (force_relogin self); [| discriminate].
    change (after st [login_page_request self; logout_request; login_page_request self])
      with (mkState (heap st)
              (sent st ++ [login_page_request self; logout_request] ++
               [login_page_request self])) in H.
    rewrite app_assoc in H.
    destruct (Hfirst _ H) as (rqs & d & Hs & Hd & Hh).
    exists ([login_page_request self; logout_request] ++ rqs), d.
    rewrite <- !app_assoc in Hs, Hd. rewrite <- app_assoc. auto.
  - destruct (status_code _ =? 200); [| discriminate].
    exact (Hfirst (sent st) H).
Qed.

(** X3: the form data [_get_request_data] returns never has the field
    [captchaResponse]; it has [rememberMe] set to [on] when [keep_longer]
    is set; every other field is as the extractor gave it for the last
    login page fetched in the call. *)
Theorem formdata_is_stripped_of_captcha
    (self : Authorizer) (st st' : State) (l : loc) :
  _get_request_data provider _get_formdata self st = (inl (FormData l), st') ->
  exists (rqs : list Request) (d d' : gmap string pyval),
    sent st' = sent st ++ rqs ++ [login_page_request self] /\
    _get_formdata (text (provider (sent st ++ rqs) (login_page_request self)))
      (username self) (password self) = inl d /\
    heap st' !! l = Some d' /\
    d' !! "captchaResponse"%string = None /\
    (keep_longer self = true -> d' !! "rememberMe"%string = Some (PStr "on")) /\
    (keep_longer self = false ->
     d' !! "rememberMe"%string = d !! "rememberMe"%string) /\
    (forall k : string,
       k <> "captchaResponse"%string -> k <> "rememberMe"%string ->
       d' !! k = d !! k).
Proof.
  intros H.
  destruct (get_request_data_last_page self st st' l H) as (rqs & d & Hs & Hd & Hh).
  exists rqs, d, (finished_formdata self d).
  split; [exact Hs |]. split; [exact Hd |].
  split; [rewrite Hh; apply lookup_insert_eq |].
  unfold finished_formdata.
  split; [apply lookup_delete_eq |].
  split; [| split].
  - intros ->. rewrite lookup_delete_ne by discriminate. apply lookup_insert_eq.
  - intros ->. now rewrite lookup_delete_ne by discriminate.
  - intros k Hc Hr. rewrite lookup_delete_ne by congruence.
    destruct (keep_longer self); [| reflexivity].
    now rewrite lookup_insert_ne by congruence.
Qed.


(** X5: only [ParseError] is retried: any other exception of the first
    extraction is the outcome at once, with no logout and no further
    request. *)
Theorem only_parse_error_is_retried
    (self : Authorizer) (st st1 : State) (login_page : Response) (e : exn) :
  fetch_login_page provider self st = (inl (inr login_page), st1) ->
  _get_formdata (text login_page) (username self) (password self) = inr e ->
  e <> ParseError ->
  _get_request_data provider _get_formdata self st = (inr e, st1).
Proof.
  intros Hfetch Hparse Hne. unfold _get_request_data. unfold bind at 1.
  rewrite Hfetch. unfold bind at 1. rewrite run_extract_formdata, Hparse.
  destruct e; try reflexivity. contradiction.
Qed.

(** X6: [_get_request_data] returns a response instead of form data only
    when [force_relogin] is unset and the first answer has status 302; the
    response is that first answer and nothing else was requested. *)
Theorem redirected_only_when_logined
    (self : Authorizer) (st st' : State) (r : Response) :
  _get_request_data provider _get_formdata self st = (inl (Redirected r), st') ->
  force_relogin self = false /\
  status_code (provider (sent st) (login_page_request self)) = 302 /\
  r = provider (sent st) (login_page_request self) /\
  st' = after st [login_page_request self].
Proof.
  intros H. unfold _get_request_data in H. unfold bind at 1 in H.
  rewrite run_fetch_login_page in H. cbn zeta in H.
  destruct (Z.eqb_spec (status_code (provider (sent st) (login_page_request self))) 302)
    as [H302 | H302].
  - destruct (force_relogin self).
    + exfalso. unfold bind at 1 in H.
      destruct (extract_formdata _ _ _ _ _) as [[l0 | e] [h2 rqs2]] eqn:He;
        [| discriminate].
      destruct (extract_formdata_result self _ _ _ l0 He)
        as (page & d & _ & _ & Hheap & _).
      cbn [heap] in Hheap. subst h2.
      rewrite run_finish_formdata in H. discriminate.
    + unfold ret in H. injection H as <- <-. auto.
  - exfalso. destruct (status_code _ =? 200); [| discriminate].
    unfold bind at 1 in H.
    destruct (extract_formdata _ _ _ _ _) as [[l0 | e] [h2 rqs2]] eqn:He;
      [| discriminate].
    destruct (extract_formdata_result self _ _ _ l0 He)
      as (page & d & _ & _ & Hheap & _).
    cbn [heap] in Hheap. subst h2.
    rewrite run_finish_formdata in H. discriminate.
Qed.

(** X7: the requests of [_get_request_data] are the login page followed by
    at most two rounds of a logout and the login page again, and nothing
    else. *)
Theorem fetches_and_logouts_alternate (self : Authorizer) (st : State) :
  exists n : nat,
    (n <= 2)%nat /\
    issued (_get_request_data provider _get_formdata self) st =
      login_page_request self ::
      concat (replicate n [logout_request; login_page_request self]).
Proof.
  rewrite get_request_data_issued. cbn zeta.
  destruct (status_code _ =? 302).
  - destruct (force_relogin self); [| exists 0%nat; split; [lia | reflexivity]].
    destruct (retry_requests_cases _get_formdata self
                (provider (sent st ++ [login_page_request self; logout_request])
                   (login_page_request self))) as [[-> _] | [-> _]].
    + exists 2%nat. split; [lia | reflexivity].
    + exists 1%nat. split; [lia | reflexivity].
  - destruct (status_code _ =? 200); [| exists 0%nat; split; [lia | reflexivity]].
    destruct (retry_requests_cases _get_formdata self
                (provider (sent st) (login_page_request self))) as [[-> _] | [-> _]].
    + exists 1%nat. split; [lia | reflexivity].
    + exists 0%nat. split; [lia | reflexivity].
Qed.

(** ** More about the submission *)

Lemma redirect_to_service_state (self : Authorizer) (login_resp : Response) (st : State) :
  snd (_redirect_to_service provider self login_resp st) =
    after st (location_requests login_resp).
Proof.
  rewrite run_redirect_to_service. unfold location_requests.
  destruct (headers login_resp !! _); cbn [snd]; [reflexivity |].
  destruct st. unfold after. cbn [heap sent]. now rewrite app_nil_r.
Qed.

Lemma kick_state (self : Authorizer) (parser : LoginedPage) (st : State) :
  snd (kick provider self parser st) =
    after st (kick_request self parser ::
              location_requests (provider (sent st) (kick_request self parser))).
Proof.
  rewrite run_kick, redirect_to_service_state. now rewrite after_after.
Qed.

(** The session after [_login], on every path. *)
Lemma login_state (self : Authorizer) (rd : loc) (st : State) :
  snd (_login provider _LoginedPageParser self rd st) =
    after st
      (submission_of st rd ::
       (if status_code (provider (sent st) (submission_of st rd)) =? 302
        then location_requests (provider (sent st) (submission_of st rd))
        else
          match _LoginedPageParser
                  (status_code (provider (sent st) (submission_of st rd)))
                  (text (provider (sent st) (submission_of st rd))) with
          | inl parser =>
              if _kick parser && kick_others self
              then kick_request self parser ::
                   location_requests
                     (provider (sent st ++ [submission_of st rd])
                        (kick_request self parser))
              else []
          | inr _ => []
          end)).
Proof.
  rewrite run_login.
  destruct (status_code _ =? 302).
  - rewrite redirect_to_service_state. now rewrite after_after.
  - unfold _handle_login_error.
    destruct (_LoginedPageParser _ _) as [parser | e]; [| reflexivity].
    destruct (_kick parser); [| reflexivity].
    destruct (kick_others self); [| reflexivity].
    cbn [andb]. rewrite kick_state. now rewrite after_after.
Qed.


(** X9: a submission answered with status 302 and no [Location], under
    whatever spelling, raises [KeyError] for the lower-cased name the
    header dictionary looks up, and nothing follows the submission. *)
Theorem accepted_submission_without_location
    (self : Authorizer) (rd : loc) (st : State) :
  status_code (provider (sent st) (submission_of st rd)) = 302 ->
  headers (provider (sent st) (submission_of st rd)) !! "location"%string = None ->
  _login provider _LoginedPageParser self rd st =
    (inr (KeyError "location"), after st [submission_of st rd]).
Proof.
  intros H302 Hloc. rewrite run_login, H302. cbn [Z.eqb Pos.eqb].
  now rewrite run_redirect_to_service, Hloc.
Qed.

(** X10: without [kick_others], a submission answered with another status
    than 302 always ends in an exception, with nothing requested after it:
    the exception of the page parser if it raises one, the conflict if it
    finds the kick form, and else [UnknownAuthserverException] with the
    status. *)
Theorem rejected_submission_raises
    (self : Authorizer) (rd : loc) (st : State) :
  kick_others self = false ->
  status_code (provider (sent st) (submission_of st rd)) <> 302 ->
  _login provider _LoginedPageParser self rd st =
    (inr
       match _LoginedPageParser
               (status_code (provider (sent st) (submission_of st rd)))
               (text (provider (sent st) (submission_of st rd))) with
       | inr e => e
       | inl parser =>
           if _kick parser
           then MultiSessionConflict (kick provider self parser)
                  (cancel provider self parser)
           else UnknownAuthserverException
                  (Some (status_code (provider (sent st) (submission_of st rd))))
       end,
     after st [submission_of st rd]).
Proof.
  intros Hko Hstatus. rewrite run_login.
  destruct (Z.eqb_spec (status_code (provider (sent st) (submission_of st rd))) 302);
    [contradiction |].
  unfold _handle_login_error.
  destruct (_LoginedPageParser _ _) as [parser | e]; [| reflexivity].
  destruct (_kick parser); [| reflexivity].
  now rewrite Hko.
Qed.

(** X11: [_login] sends at most three requests, the submission first; at
    most two of them are posts to the login address, and two only with
    [kick_others]. *)
Theorem login_sends_at_most_three_requests
    (self : Authorizer) (rd : loc) (st : State) :
  (1 <= length (issued (_login provider _LoginedPageParser self rd) st) <= 3)%nat /\
  head (issued (_login provider _LoginedPageParser self rd) st) =
    Some (submission_of st rd) /\
  (count_of is_submission
     (issued (_login provider _LoginedPageParser self rd) st) <= 2)%nat /\
  (count_of is_submission
     (issued (_login provider _LoginedPageParser self rd) st) = 2%nat ->
   kick_others self = true).
Proof.
  rewrite (issued_of_sent (_login provider _LoginedPageParser self rd) st _
             (f_equal sent (login_state self rd st))).
  unfold location_requests.
  destruct (status_code _ =? 302).
  - destruct (headers _ !! _); cbn; repeat split; try lia; discriminate.
  - destruct (_LoginedPageParser _ _) as [parser | e];
      [| cbn; repeat split; try lia; discriminate].
    destruct (_kick parser); cbn [andb];
      [| cbn; repeat split; try lia; discriminate].
    destruct (kick_others self);
      [| cbn; repeat split; try lia; discriminate].
    destruct (headers _ !! _); cbn; repeat split; try lia; reflexivity.
Qed.

(** X12: the submission and the two conflict capabilities never touch a
    dictionary: the request data is after them what it was before. *)
Theorem submission_leaves_dictionaries_alone
    (self : Authorizer) (rd : loc) (parser : LoginedPage) (st : State) :
  heap (snd (_login provider _LoginedPageParser self rd st)) = heap st /\
  heap (snd (kick provider self parser st)) = heap st /\
  heap (snd (cancel provider self parser st)) = heap st.
Proof.
  split; [| split].
  - now rewrite login_state.
  - now rewrite kick_state.
  - now rewrite run_cancel.
Qed.

End MoreFacts.

(** ** The card page *)

(** A parser that has taken its tag ignores every later one. *)
Lemma feed_latched
    (self : CardPageParser) (tags : list (string * list (string * option string))) :
  _starttag self = true -> feed_starttags self tags = self.
Proof.
  intros Hlatched. unfold feed_starttags.
  induction tags as [| t tags IH]; [reflexivity |].
  cbn [fold_left]. unfold handle_starttag at 2. rewrite Hlatched. cbn [negb andb].
  exact IH.
Qed.

Lemma handle_other_tag
    (self : CardPageParser) (t : string * list (string * option string)) :
  ~ is_ticket_input t -> handle_starttag self (fst t) (snd t) = self.
Proof.
  intros Hno. unfold handle_starttag.
  destruct (negb (_starttag self)); [| reflexivity]. cbn [andb].
  destruct (String.eqb_spec (fst t) "input") as [Htag | Htag]; [| reflexivity].
  cbn [andb]. case_bool_decide as Hin; [| reflexivity].
  exfalso. apply Hno. split; assumption.
Qed.

Lemma feed_other_tags
    (self : CardPageParser) (tags : list (string * list (string * option string))) :
  Forall (fun t => ~ is_ticket_input t) tags -> feed_starttags self tags = self.
Proof.
  unfold feed_starttags. induction 1 as [| t tags Ht _ IH]; [reflexivity |].
  cbn [fold_left]. now rewrite handle_other_tag.
Qed.

Lemma first_value_found
    (a1 a2 : list (string * option string)) (v : option string) :
  Forall (fun kv => fst kv <> "value"%string) a1 ->
  first_value (a1 ++ ("value"%string, v) :: a2) = Some v.
Proof.
  induction 1 as [| [k w] a1 Hk _ IH]; [reflexivity |].
  cbn [app first_value]. cbn [fst] in Hk.
  now destruct (String.eqb_spec k "value").
Qed.

Lemma first_value_missing (attrs : list (string * option string)) :
  Forall (fun kv => fst kv <> "value"%string) attrs -> first_value attrs = None.
Proof.
  induction 1 as [| [k w] attrs Hk _ IH]; [reflexivity |].
  cbn [first_value]. cbn [fst] in Hk.
  now destruct (String.eqb_spec k "value").
Qed.

(** The first start tag taken for the ticket field decides the parser. *)
Lemma feed_first_ticket_input
    (before after_ : list (string * list (string * option string)))
    (t : string * list (string * option string)) :
  Forall (fun b => ~ is_ticket_input b) before ->
  is_ticket_input t ->
  feed_starttags CardPageParser_init (before ++ t :: after_) =
    mkCardPageParser true
      match first_value (snd t) with
      | Some val => val
      | None => Some ""%string
      end.
Proof.
  intros Hbefore [Htag Hin]. unfold feed_starttags. rewrite fold_left_app.
  fold (feed_starttags CardPageParser_init before).
  rewrite (feed_other_tags _ _ Hbefore). cbn [fold_left].
  unfold handle_starttag at 2. rewrite Htag.
  cbn [CardPageParser_init _starttag negb andb String.eqb Ascii.eqb Bool.eqb].
  rewrite bool_decide_eq_true_2 by exact Hin. cbn [andb].
  match goal with
  | |- fold_left ?f after_ ?p0 = _ =>
      change (fold_left f after_ p0) with (feed_starttags p0 after_)
  end.
  destruct (first_value (snd t)) as [val |]; now rewrite feed_latched.
Qed.

(** X13: the identifier a page gives is the value of the first [value]
    attribute of the first [input] tag with the name [ssoticketid]: the tags
    before it do not count, and the tags after it, other ticket fields
    among them, change nothing. *)
Theorem ticket_field_is_first_match
    (before after_ : list (string * list (string * option string)))
    (a1 a2 : list (string * option string)) (v : option string) :
  Forall (fun b => ~ is_ticket_input b) before ->
  ("name"%string, Some "ssoticketid"%string) ∈ a1 ++ ("value"%string, v) :: a2 ->
  Forall (fun kv => fst kv <> "value"%string) a1 ->
  feed_starttags CardPageParser_init
    (before ++ ("input"%string, a1 ++ ("value"%string, v) :: a2) :: after_) =
    mkCardPageParser true v.
Proof.
  intros Hbefore Hname Hfirst.
  rewrite feed_first_ticket_input; [| exact Hbefore | split; [reflexivity | exact Hname]].
  cbn [snd]. now rewrite first_value_found.
Qed.

(** X14: a ticket field without any [value] attribute still closes the
    parser: the identifier stays empty and a later, complete ticket field
    is not read. *)
Theorem ticket_field_without_value_closes_parser
    (before after_ : list (string * list (string * option string)))
    (attrs : list (string * option string)) :
  Forall (fun b => ~ is_ticket_input b) before ->
  ("name"%string, Some "ssoticketid"%string) ∈ attrs ->
  Forall (fun kv => fst kv <> "value"%string) attrs ->
  feed_starttags CardPageParser_init (before ++ ("input"%string, attrs) :: after_) =
    mkCardPageParser true (Some ""%string).
Proof.
  intros Hbefore Hname Hnone.
  rewrite feed_first_ticket_input; [| exact Hbefore | split; [reflexivity | exact Hname]].
  cbn [snd]. now rewrite first_value_missing.
Qed.

(** X15: a page without a ticket field leaves the parser as it was made:
    not closed, the identifier empty, and no exception. *)
Theorem page_without_ticket_field
    (tags : list (string * list (string * option string))) :
  Forall (fun t => ~ is_ticket_input t) tags ->
  feed_starttags CardPageParser_init tags = CardPageParser_init /\
  ssoticket_id (feed_starttags CardPageParser_init tags) = Some ""%string.
Proof.
  intros Hnone. rewrite feed_other_tags by exact Hnone. split; reflexivity.
Qed.

(** ** More about the ticket *)

Section TicketFacts.

Variable provider : list Request -> Request -> Response.

(** Where [sub] is taken from [s], it occurs. *)
Lemma substring_occurs (sub : string) : forall (m : nat) (s : string),
  sub <> EmptyString ->
  String.substring m (String.length sub) s = sub -> occurs_at sub s m.
Proof.
  induction m as [| m IH]; intros s Hne H.
  - destruct (substring_split sub s H) as [post ->].
    exists EmptyString, post. split; reflexivity.
  - destruct s as [| c s].
    + destruct sub; [congruence | discriminate].
    + cbn [String.substring] in H. apply occurs_at_tail. now apply IH.
Qed.

Lemma index_absent (sub s : string) :
  sub <> EmptyString ->
  (forall m, ~ occurs_at sub s m) -> String.index 0 sub s = None.
Proof.
  intros Hne Hno. destruct (String.index 0 sub s) as [m |] eqn:E; [| reflexivity].
  exfalso. apply (Hno m). apply substring_occurs; [exact Hne |].
  exact (index_correct1 _ _ _ _ E).
Qed.

Lemma index_quote_none (t : string) :
  quote_free t -> String.index 0 "'" t = None.
Proof.
  induction t as [| c t IH]; intros Hq; [reflexivity |].
  cbn [String.index String.prefix].
  destruct (Ascii.ascii_dec "'"%char c) as [<- | Hc].
  - exfalso. apply (Hq 0%nat). reflexivity.
  - rewrite IH; [reflexivity |]. intros n. apply (Hq (S n)).
Qed.

Lemma get_substring_one (s : string) : forall (q : nat) (c : ascii),
  String.get q s = Some c -> String.substring q 1 s = String c EmptyString.
Proof.
  induction s as [| x s IH]; intros q c H; [discriminate |].
  destruct q as [| q].
  - cbn in H. injection H as <-. cbn. now destruct s.
  - cbn [String.get] in H. cbn [String.substring]. now apply IH.
Qed.

(** X16: [_get_ticket] sends its one request whatever comes of it; an
    answer with another status than 200 gives [CQUWebsiteError] even when
    its body holds a ticket, and an answer with status 200 whose body has
    no ['ticket='] gives [TicketGetError]. *)
Theorem get_ticket_errors (st : State) :
  snd (_get_ticket provider st) = after st [ticket_request] /\
  (status_code (provider (sent st) ticket_request) <> 200 ->
   fst (_get_ticket provider st) = inr CQUWebsiteError) /\
  (status_code (provider (sent st) ticket_request) = 200 ->
   (forall m : nat,
      ~ occurs_at "ticket=" (text (provider (sent st) ticket_request)) m) ->
   fst (_get_ticket provider st) = inr TicketGetError).
Proof.
  split; [| split].
  - unfold _get_ticket, bind, session_post. rewrite run_request.
    fold ticket_request.
    destruct (status_code _ =? 200); cbn [negb]; [| reflexivity].
    now destruct (0 <? _).
  - intros Hstatus. rewrite run_get_ticket.
    destruct (Z.eqb_spec (status_code (provider (sent st) ticket_request)) 200);
      [contradiction | reflexivity].
  - intros H200 Habsent. rewrite run_get_ticket, H200. cbn [Z.eqb Pos.eqb].
    unfold Py.find at 1. unfold Py.norm_index.
    replace (Z.to_nat _) with 0%nat by (cbn; lia).
    rewrite index_absent; [reflexivity | discriminate | exact Habsent].
Qed.

(** X17: when no single quote follows the first ['ticket='], which stands
    at a positive offset, the end of the slice is -1: [_get_ticket] returns
    what follows the marker without its last character.  What follows the
    marker is ASCII text here, so that its last byte is its last
    character. *)
Theorem get_ticket_unterminated (st : State) (pre t : string) :
  status_code (provider (sent st) ticket_request) = 200 ->
  text (provider (sent st) ticket_request) = (pre ++ "ticket=" ++ t)%string ->
  first_at "ticket=" (text (provider (sent st) ticket_request)) (String.length pre) ->
  (0 < String.length pre)%nat ->
  quote_free t ->
  ascii_only t ->
  fst (_get_ticket provider st) = inl (without_last t).
Proof.
  intros H200 Hbody [_ Hmin] Hpos Hq _.
  rewrite run_get_ticket, H200. cbn [Z.eqb Pos.eqb]. rewrite Hbody in *.
  rewrite find_marker by exact Hmin.
  destruct (Z.ltb_spec 0 (Z.of_nat (String.length pre))) as [_ | Hle]; [| lia].
  f_equal.
  assert (Hend : Py.find (pre ++ "ticket=" ++ t) "'" (Z.of_nat (String.length pre)) = -1).
  { unfold Py.find, Py.norm_index. rewrite length_append.
    replace (Z.to_nat _) with (String.length pre).
    2:{ destruct (Z.ltb_spec (Z.of_nat (String.length pre)) 0); lia. }
    rewrite index_skip. rewrite ?append_cons, ?append_nil.
    cbn [String.index String.prefix]. cbn.
    now rewrite index_quote_none. }
  rewrite Hend. unfold Py.slice, Py.norm_index, without_last.
  rewrite !length_append. cbn [String.length].
  destruct (Z.ltb_spec (Z.of_nat (String.length pre) + Z.of_nat 7) 0) as [Hneg | _];
    [lia |].
  cbn [Z.ltb Z.compare].
  rewrite Z.min_l by lia. rewrite Z.max_r by lia.
  replace (Z.to_nat (_ - _)) with (String.length t - 1)%nat by lia.
  replace (Z.to_nat _) with (String.length (pre ++ "ticket=")).
  2:{ rewrite length_append. cbn [String.length]. lia. }
  rewrite (append_assoc pre "ticket="). apply substring_skip.
Qed.

(** X18: whatever the body, a ticket that [_get_ticket] returns holds no
    single quote. *)
Theorem get_ticket_never_returns_a_quote (st : State) (ticket : string) :
  fst (_get_ticket provider st) = inl ticket -> quote_free ticket.
Proof.
  rewrite run_get_ticket.
  destruct (status_code _ =? 200); [| discriminate].
  set (body := text (provider (sent st) ticket_request)).
  assert (Hfind : Py.find body "ticket=" 0 =
                    match String.index 0 "ticket=" body with
                    | Some k => Z.of_nat k
                    | None => -1
                    end).
  { unfold Py.find, Py.norm_index.
    now replace (Z.to_nat (if 0 <? 0 then _ else _)) with 0%nat by (cbn; lia). }
  rewrite Hfind. clear Hfind.
  destruct (String.index 0 "ticket=" body) as [k |] eqn:Ek; [| discriminate].
  destruct (Z.ltb_spec 0 (Z.of_nat k)) as [Hk | _]; [| discriminate].
  intros H. injection H as <-.
  unfold Py.find, Py.slice.
  set (len := Z.of_nat (String.length body)).
  set (n := Z.to_nat (Py.norm_index len (Z.of_nat k))).
  set (lo := Py.norm_index len (Z.of_nat k + Z.of_nat (String.length "ticket="))).
  assert (Hn : (n <= Z.to_nat lo)%nat).
  { subst n lo. unfold Py.norm_index. cbn [String.length].
    destruct (Z.ltb_spec (Z.of_nat k) 0); [lia |].
    destruct (Z.ltb_spec (Z.of_nat k + Z.of_nat 7) 0); lia. }
  assert (Hlo : 0 <= lo).
  { subst lo. unfold Py.norm_index. cbn [String.length].
    destruct (Z.ltb_spec (Z.of_nat k + Z.of_nat 7) 0); lia. }
  intros p Hp.
  destruct (String.index n "'" body) as [m |] eqn:Em.
  - set (hi := Py.norm_index len (Z.of_nat m)) in *.
    destruct (Nat.lt_ge_cases p (Z.to_nat (hi - lo))) as [Hlt | Hge].
    + rewrite substring_correct1 in Hp by exact Hlt.
      apply get_substring_one in Hp.
      apply (index_correct2 _ _ _ _ Em (p + Z.to_nat lo)%nat); [lia | | exact Hp].
      assert (hi <= Z.of_nat m).
      { subst hi. unfold Py.norm_index.
        destruct (Z.ltb_spec (Z.of_nat m) 0); lia. }
      lia.
    + rewrite substring_correct2 in Hp by exact Hge. discriminate.
  - set (hi := Py.norm_index len (-1)) in *.
    destruct (Nat.lt_ge_cases p (Z.to_nat (hi - lo))) as [Hlt | Hge].
    + rewrite substring_correct1 in Hp by exact Hlt.
      apply get_substring_one in Hp.
      apply (index_correct3 _ (p + Z.to_nat lo)%nat _ _ Em); [discriminate | lia | exact Hp].
    + rewrite substring_correct2 in Hp by exact Hge. discriminate.
Qed.

End TicketFacts.

(** ** The fee queries *)

Section FeeFacts.

Variable requests_post :
  string -> gmap string pyval -> option (gmap string string) -> Response.
Variable json_loads : string -> option json.
Variable raise_CQUWebsiteError : json -> pyexn.

(** X19: [_get_synjones_auth] returns a string exactly when the answer has
    status 200, its body decodes, and [data] holds a string under
    [access_token]; the result is then that token behind ["bearer "]. *)
Theorem synjones_auth_is_bearer_token (ticket s : string) :
  _get_synjones_auth requests_post json_loads ticket = inl s <->
  status_code
    (requests_post synjones_auth_url {[ "ticket"%string := PStr ticket ]} None) = 200 /\
  exists (dic data : json) (token : string),
    json_loads
      (text (requests_post synjones_auth_url {[ "ticket"%string := PStr ticket ]} None))
      = Some dic /\
    getitem dic "data" = inl data /\
    getitem data "access_token" = inl (JStr token) /\
    s = ("bearer " ++ token)%string.
Proof.
  unfold _get_synjones_auth. cbn zeta.
  set (r := requests_post synjones_auth_url {[ "ticket"%string := PStr ticket ]} None).
  destruct (Z.eqb_spec (status_code r) 200) as [H200 | H200]; cbn [negb].
  - split.
    + intros H. split; [exact H200 |].
      destruct (json_loads (text r)) as [dic |]; [| discriminate].
      destruct (getitem dic "data") as [data | e] eqn:Hdata; [| discriminate].
      destruct (getitem data "access_token") as [token | e] eqn:Htoken;
        [| discriminate].
      destruct token; try discriminate.
      cbn [str_add] in H. injection H as <-.
      eexists _, _, _. repeat split; [exact Hdata | exact Htoken].
    + intros (_ & dic & data & token & -> & -> & -> & ->). reflexivity.
  - split; [discriminate | intros [H _]; contradiction].
Qed.

(** X20: on an answer with status 200, whatever goes wrong while the body
    is decoded and searched is reported as [ParseError]: a body that does
    not decode, a decoded value or a [data] that cannot be subscripted, a
    missing [data] or [access_token]; the [JSONDecodeError], [TypeError]
    or [KeyError] behind it does not leave the function. *)
Theorem synjones_auth_failures_are_parse_errors (ticket : string) :
  status_code
    (requests_post synjones_auth_url {[ "ticket"%string := PStr ticket ]} None) = 200 ->
  (json_loads
     (text (requests_post synjones_auth_url {[ "ticket"%string := PStr ticket ]} None))
     = None \/
   exists dic : json,
     json_loads
       (text (requests_post synjones_auth_url {[ "ticket"%string := PStr ticket ]} None))
       = Some dic /\
     ((exists e : pyexn, getitem dic "data" = inr e) \/
      exists data : json,
        getitem dic "data" = inl data /\
        exists e : pyexn, getitem data "access_token" = inr e)) ->
  _get_synjones_auth requests_post json_loads ticket = inr (Raised ParseError).
Proof.
  intros H200 Hfail. unfold _get_synjones_auth. cbn zeta.
  rewrite H200. cbn [Z.eqb Pos.eqb negb].
  destruct Hfail as [-> | (dic & -> & [[e ->] | (data & -> & e & ->)])];
    reflexivity.
Qed.

(** X21: the concatenation with ["bearer "] stands outside the [try]: an
    [access_token] that is present and no string makes [_get_synjones_auth]
    raise [TypeError], not [ParseError]. *)
Theorem synjones_auth_token_must_be_string
    (ticket : string) (dic data token : json) :
  status_code
    (requests_post synjones_auth_url {[ "ticket"%string := PStr ticket ]} None) = 200 ->
  json_loads
    (text (requests_post synjones_auth_url {[ "ticket"%string := PStr ticket ]} None))
    = Some dic ->
  getitem dic "data" = inl data ->
  getitem data "access_token" = inl token ->
  (forall s : string, token <> JStr s) ->
  _get_synjones_auth requests_post json_loads ticket = inr TypeError.
Proof.
  intros H200 Hdic Hdata Htoken Hno. unfold _get_synjones_auth. cbn zeta.
  rewrite H200, Hdic, Hdata, Htoken. cbn [Z.eqb Pos.eqb negb].
  destruct token; try reflexivity. exfalso. now apply (Hno s).
Qed.

(** X22: [_get_fee_data] returns exactly when the answer has status 200
    and its body decodes to a dictionary whose [msg] is the string
    [success]; what it returns is that dictionary. *)
Theorem fee_data_returned_iff_success
    (synjones_auth room fee_item_id : string) (dic : json) :
  _get_fee_data requests_post json_loads raise_CQUWebsiteError
    synjones_auth room fee_item_id = inl dic <->
  status_code
    (requests_post fee_data_url
       {[ "feeitemid"%string := PStr fee_item_id; "json"%string := PStr "true";
          "level"%string := PStr "2"; "room"%string := PStr room;
          "type"%string := PStr "IEC" ]}
       (Some {[ "synjones-auth"%string := synjones_auth ]})) = 200 /\
  json_loads
    (text
       (requests_post fee_data_url
          {[ "feeitemid"%string := PStr fee_item_id; "json"%string := PStr "true";
             "level"%string := PStr "2"; "room"%string := PStr room;
             "type"%string := PStr "IEC" ]}
          (Some {[ "synjones-auth"%string := synjones_auth ]}))) = Some dic /\
  getitem dic "msg" = inl (JStr "success").
Proof.
  unfold _get_fee_data. cbn zeta.
  set (r := requests_post fee_data_url _ _).
  destruct (Z.eqb_spec (status_code r) 200) as [H200 | H200]; cbn [negb].
  - split.
    + intros H. split; [exact H200 |].
      destruct (json_loads (text r)) as [dic0 |]; [| discriminate].
      destruct (getitem dic0 "msg") as [msg | e] eqn:Hmsg; [| discriminate].
      destruct (eq_str msg "success") eqn:Heq.
      * injection H as <-. split; [reflexivity |].
        destruct msg; try discriminate. cbn [eq_str] in Heq.
        apply String.eqb_eq in Heq. now subst.
      * discriminate.
    + intros (_ & -> & ->). reflexivity.
  - split; [discriminate | intros [H _]; contradiction].
Qed.

(** X23: the failures of [_get_fee_data] on an answer with status 200 are
    not wrapped: a body that does not decode lets [JSONDecodeError]
    through, a decoded value that is no dictionary gives [TypeError], a
    dictionary without [msg] gives [KeyError], and any other [msg] than the
    string [success] is handed to [CQUWebsiteError], whose raising ends the
    call. *)
Theorem fee_data_failures
    (synjones_auth room fee_item_id : string) :
  status_code
    (requests_post fee_data_url
       {[ "feeitemid"%string := PStr fee_item_id; "json"%string := PStr "true";
          "level"%string := PStr "2"; "room"%string := PStr room;
          "type"%string := PStr "IEC" ]}
       (Some {[ "synjones-auth"%string := synjones_auth ]})) = 200 ->
  _get_fee_data requests_post json_loads raise_CQUWebsiteError
    synjones_auth room fee_item_id =
    match json_loads
            (text
               (requests_post fee_data_url
                  {[ "feeitemid"%string := PStr fee_item_id;
                     "json"%string := PStr "true";
                     "level"%string := PStr "2"; "room"%string := PStr room;
                     "type"%string := PStr "IEC" ]}
                  (Some {[ "synjones-auth"%string := synjones_auth ]}))) with
    | None => inr JSONDecodeError
    | Some (JDict items) =>
        match dict_get items "msg" with
        | None => inr (Raised (KeyError "msg"))
        | Some msg =>
            if eq_str msg "success" then inl (JDict items)
            else inr (raise_CQUWebsiteError msg)
        end
    | Some _ => inr TypeError
    end.
Proof.
  intros H200. unfold _get_fee_data. cbn zeta. rewrite H200. cbn [Z.eqb Pos.eqb negb].
  destruct (json_loads _) as [dic |]; [| reflexivity].
  destruct dic; try reflexivity. cbn [getitem].
  destruct (dict_get items "msg") as [msg |]; [| reflexivity].
  now destruct (eq_str msg "success").
Qed.

End FeeFacts.

(** ** More concrete runs *)

Lemma unexpected_status_raises_witness :
  _get_request_data provider_down form_fields (student true false) fresh_session =
    (inr (UnknownAuthserverException None),
     after fresh_session [login_page_request (student true false)]).
Proof.
  apply (unexpected_status_raises provider_down form_fields (student true false)
           fresh_session); vm_compute; lia.
Defined.

Lemma refetched_page_status_is_not_checked_witness :
  _get_request_data provider_odd form_fields (student true false) fresh_session =
    (inl (FormData (fresh (dom (heap fresh_session)))),
     mkState
       (<[fresh (dom (heap fresh_session)) :=
            finished_formdata (student true false) login_form]> (heap fresh_session))
       (sent fresh_session ++
        [login_page_request (student true false); logout_request;
         login_page_request (student true false)])).
Proof.
  apply (refetched_page_status_is_not_checked provider_odd form_fields
           (student true false) fresh_session login_form); reflexivity.
Defined.

(** The student asks to stay logged in and the form has a CAPTCHA field:
    the field is gone from the form data and [rememberMe] is on. *)
Lemma formdata_is_stripped_of_captcha_witness :
  exists (rqs : list Request) (d d' : gmap string pyval),
    sent (mkState {[ 1%positive := <[ "rememberMe"%string := PStr "on" ]> login_form ]}
            [login_page_request student_staying]) =
      sent fresh_session ++ rqs ++ [login_page_request student_staying] /\
    form_fields_with_captcha
      (text (provider_fresh (sent fresh_session ++ rqs)
               (login_page_request student_staying)))
      (username student_staying) (password student_staying) = inl d /\
    heap (mkState {[ 1%positive := <[ "rememberMe"%string := PStr "on" ]> login_form ]}
            [login_page_request student_staying]) !! 1%positive = Some d' /\
    d' !! "captchaResponse"%string = None /\
    (keep_longer student_staying = true ->
     d' !! "rememberMe"%string = Some (PStr "on")) /\
    (keep_longer student_staying = false ->
     d' !! "rememberMe"%string = d !! "rememberMe"%string) /\
    (forall k : string,
       k <> "captchaResponse"%string -> k <> "rememberMe"%string ->
       d' !! k = d !! k).
Proof.
  apply (formdata_is_stripped_of_captcha provider_fresh form_fields_with_captcha
           student_staying fresh_session).
  vm_compute. reflexivity.
Defined.


Lemma only_parse_error_is_retried_witness :
  _get_request_data provider_fresh broken_fields (student false false) fresh_session =
    (inr (KeyError "execution"),
     after fresh_session [login_page_request (student false false)]).
Proof.
  apply (only_parse_error_is_retried provider_fresh broken_fields
           (student false false) fresh_session
           (after fresh_session [login_page_request (student false false)])
           (page 200 "<form>") (KeyError "execution"));
    first [reflexivity | discriminate].
Defined.

Lemma redirected_only_when_logined_witness :
  force_relogin (student false false) = false /\
  status_code (provider_logined (sent fresh_session)
                 (login_page_request (student false false))) = 302 /\
  redirect_to "http://my.cqu.edu.cn/?ticket=ST-1" =
    provider_logined (sent fresh_session) (login_page_request (student false false)) /\
  after fresh_session [login_page_request (student false false)] =
    after fresh_session [login_page_request (student false false)].
Proof.
  apply (redirected_only_when_logined provider_logined form_fields
           (student false false) fresh_session
           (after fresh_session [login_page_request (student false false)])
           (redirect_to "http://my.cqu.edu.cn/?ticket=ST-1")).
  reflexivity.
Defined.


Lemma accepted_submission_without_location_witness :
  _login provider_lost conflict_parser (student false false) 1%positive
    filled_session =
    (inr (KeyError "location"),
     after filled_session [submission_of filled_session 1%positive]).
Proof.
  apply (accepted_submission_without_location provider_lost conflict_parser
           (student false false) 1%positive filled_session); reflexivity.
Defined.

Lemma rejected_submission_raises_witness :
  _login provider_down conflict_parser (student false false) 1%positive
    filled_session =
    (inr (UnknownAuthserverException (Some 500)),
     after filled_session [submission_of filled_session 1%positive]).
Proof.
  apply (rejected_submission_raises provider_down conflict_parser
           (student false false) 1%positive filled_session);
    first [reflexivity | vm_compute; lia].
Defined.

Lemma card_page_before_ticket_field :
  Forall (fun b => ~ is_ticket_input b)
    [ ("form", [("method", Some "post")]);
      ("input", [("type", Some "hidden"); ("name", Some "errorcode");
                 ("value", Some "1")]) ]%string.
Proof.
  repeat constructor; intros [Htag Hin]; cbn [fst snd] in *;
    first [discriminate
          | repeat (apply elem_of_cons in Hin as [Hin | Hin]; [discriminate |]);
            now apply elem_of_nil in Hin].
Qed.

Lemma ticket_field_is_first_match_witness :
  feed_starttags CardPageParser_init card_page_tags =
    mkCardPageParser true (Some "T-42"%string).
Proof.
  apply (ticket_field_is_first_match
           [ ("form", [("method", Some "post")]);
             ("input", [("type", Some "hidden"); ("name", Some "errorcode");
                        ("value", Some "1")]) ]%string
           [ ("input", [("name", Some "ssoticketid"); ("value", Some "T-43")]) ]%string
           [("type", Some "hidden"); ("name", Some "ssoticketid")]%string
           [] (Some "T-42"%string)).
  - exact card_page_before_ticket_field.
  - apply list_elem_of_further, list_elem_of_here.
  - repeat constructor; discriminate.
Defined.

Lemma ticket_field_without_value_closes_parser_witness :
  feed_starttags CardPageParser_init
    [ ("input", [("name", Some "ssoticketid")]);
      ("input", [("name", Some "ssoticketid"); ("value", Some "T-43")]) ]%string =
    mkCardPageParser true (Some ""%string).
Proof.
  apply (ticket_field_without_value_closes_parser []
           [("input", [("name", Some "ssoticketid"); ("value", Some "T-43")])]%string
           [("name", Some "ssoticketid")]%string).
  - constructor.
  - apply list_elem_of_here.
  - repeat constructor; discriminate.
Defined.

Lemma page_without_ticket_field_witness :
  feed_starttags CardPageParser_init
    [ ("form", [("method", Some "post")]);
      ("input", [("type", Some "hidden"); ("name", Some "errorcode");
                 ("value", Some "1")]) ]%string = CardPageParser_init /\
  ssoticket_id
    (feed_starttags CardPageParser_init
       [ ("form", [("method", Some "post")]);
         ("input", [("type", Some "hidden"); ("name", Some "errorcode");
                    ("value", Some "1")]) ]%string) = Some ""%string.
Proof.
  apply (page_without_ticket_field
           [ ("form", [("method", Some "post")]);
             ("input", [("type", Some "hidden"); ("name", Some "errorcode");
                        ("value", Some "1")]) ]%string).
  exact card_page_before_ticket_field.
Defined.

Lemma abc_ascii_only : ascii_only "abc".
Proof.
  intros [|[|[|n]]] c H; cbn in H; try discriminate; injection H as <-;
    apply Nat.ltb_lt; reflexivity.
Qed.

Lemma get_ticket_unterminated_witness :
  fst (_get_ticket provider_unterminated fresh_session) = inl (without_last "abc").
Proof.
  apply (get_ticket_unterminated provider_unterminated fresh_session "x" "abc").
  - reflexivity.
  - reflexivity.
  - apply (first_at_offset_one "x" "abc"). discriminate.
  - cbn. lia.
  - exact abc_quote_free.
  - exact abc_ascii_only.
Defined.

Lemma get_ticket_never_returns_a_quote_witness : quote_free "abc".
Proof.
  apply (get_ticket_never_returns_a_quote provider_ticket fresh_session "abc").
  vm_compute. reflexivity.
Defined.

Lemma synjones_auth_failures_are_parse_errors_witness :
  _get_synjones_auth garbled_service sample_json_loads "abc" = inr (Raised ParseError).
Proof.
  apply (synjones_auth_failures_are_parse_errors garbled_service sample_json_loads
           "abc").
  - reflexivity.
  - left. reflexivity.
Defined.

Lemma synjones_auth_token_must_be_string_witness :
  _get_synjones_auth number_service sample_json_loads "abc" = inr TypeError.
Proof.
  apply (synjones_auth_token_must_be_string number_service sample_json_loads "abc"
           (JDict [("data", JDict [("access_token", JNum "7")])])
           (JDict [("access_token", JNum "7")]) (JNum "7"))%string;
    first [reflexivity | discriminate].
Defined.

Lemma fee_data_failures_witness :
  _get_fee_data refusing_service refusal_json_loads message_error
    "bearer abc.def" "A-101" "182" =
    inr (CQUWebsiteErrorWith (JStr "room not found")).
Proof.
  apply (fee_data_failures refusing_service refusal_json_loads message_error
           "bearer abc.def" "A-101" "182").
  reflexivity.
Defined.
